(** * AAU Cross-Campus Meal System: barcode scanner and Django CRUD backend

    A shallow embedding of

    - [Barcode Scanner from camera web version/scanner/views.py]
      ([read_bar], [decode_barcode]) and
    - [Django-API-BW/Django-backend/DjangoAPI/MealSystem]
      ([models.py], [serializers.py], [urls.py], [views.py]),

    together with the properties of the behaviour they implement.

    Python exceptions are values of [exn]; a computation that may raise
    returns [res A = exn + A].  Calls into OpenCV, pyzbar, Django and the
    REST framework are modelled by their documented behaviour; the parts
    of these libraries that are pure data processing (image decoding,
    serializer field validation, lookup-value coercion) are parameters. *)

From Stdlib Require Import ZArith Ascii String List Bool Lia.
From Stdlib.Strings Require Import Byte.
From stdpp Require Import base tactics option list gmap strings.

Local Open Scope string_scope.
Local Open Scope Z_scope.
Local Open Scope list_scope.

(** ** Python exceptions and results *)

Inductive exn : Type :=
| TypeError
| ValueError
| KeyError (key : string)
| UnboundLocalError (var : string)
| ParseError
| Http404
| FieldError (keyword : string)
| DoesNotExist (model : string)
| MultipleObjectsReturned (model : string)
| IntegrityError (model : string).

Definition res (A : Type) : Type := exn + A.


Definition raised {A} (r : res A) : option exn :=
  match r with inl e => Some e | inr _ => None end.

(** * The barcode scanner *)

Module Scanner.

(** pyzbar's [Decoded] named tuple, restricted to the fields the script
    reads: [data] (a Python [bytes]) and [rect] (left, top, width, height). *)
Record Decoded : Type := mkDecoded {
  data : list Byte.byte;
  rect : Z * Z * Z * Z
}.

(** Every call that reaches outside the process, in program order. *)
Inductive event : Type :=
| VideoCapture (index : Z)
| CamRead
| ImShow (window : string)
| WaitKey (delay : Z)
| ImWrite (filename : string)
| DestroyAllWindows
| Print (line : string)
| ImRead (filename : string)
| Rectangle (pt1 pt2 : Z * Z).

Inductive device : Type := Camera | Display | Keyboard | Disk | Console | Memory | Network.

Definition device_of (e : event) : device :=
  match e with
  | VideoCapture _ | CamRead => Camera
  | ImShow _ | DestroyAllWindows => Display
  | WaitKey _ => Keyboard
  | ImWrite _ | ImRead _ => Disk
  | Print _ => Console
  | Rectangle _ _ => Memory
  end.

Definition is_network (e : event) : bool :=
  match device_of e with Network => true | _ => false end.

#[global] Instance event_eq_dec : EqDecision event.
Proof. solve_decision. Defined.

Definition no_barcode_msg : string :=
  "Barcode Not Detected or your barcode is blank/corrupted!".

Definition capture_file : string := "barcode__.jpg".

(** [chr(i)] for a byte [i]: the character with code point [i]. *)
Definition chr (i : Byte.byte) : ascii := ascii_of_byte i.

(** [dec = ""; for i in data: dec += str(chr(i))] *)
Definition decode_chars (d : list Byte.byte) : string :=
  fold_left (fun dec i => dec +:+ String (chr i) EmptyString) d "".

Section Scanner.

(** [image] is a decoded pixel array; [decode] is [pyzbar.decode]; [jpeg f]
    is the array [cv.imread] yields from the file [cv.imwrite] produced
    for [f] (JPEG is lossy, so it need not be [f]). *)
Variable image : Type.
Variable decode : image -> list Decoded.
Variable jpeg : image -> image.

(** The working directory maps a file name to the image [cv.imread]
    returns for it; a missing or unreadable file gives [None]. *)
Record world : Type := mkWorld {
  files : gmap string image;
  stdout : list string;
  log : list event
}.

Definition emit (e : event) (w : world) : world :=
  {| files := files w; stdout := stdout w; log := log w ++ [e] |}.

Definition print (line : string) (w : world) : world :=
  emit (Print line) {| files := files w; stdout := stdout w ++ [line]; log := log w |}.

Definition imwrite (filename : string) (frame : image) (w : world) : world :=
  emit (ImWrite filename)
       {| files := <[filename := jpeg frame]> (files w); stdout := stdout w; log := log w |}.

(** [read_bar(filename)].  [cv.imread] of a missing file is [None], on
    which [pyzbar.decode] raises [TypeError].  With a non-empty result the
    [for] loop returns in its first iteration. *)
Definition read_bar (filename : string) (w : world) : res string * world :=
  let w := emit (ImRead filename) w in
  match files w !! filename with
  | None => (inl TypeError, w)
  | Some img =>
      match decode img with
      | [] => (inr no_barcode_msg, w)
      | barcode :: _ =>
          let '(x, y, wd, h) := rect barcode in
          let w := emit (Rectangle (x - 10, y - 10) (x + wd + 10, y + h + 10)) w in
          (inr (decode_chars (data barcode)), w)
      end
  end.

(** The value [read_bar] returns for the content of the file. *)
Definition read_bar_result (content : option image) : res string :=
  match content with
  | None => inl TypeError
  | Some img =>
      match decode img with
      | [] => inr no_barcode_msg
      | barcode :: _ => inr (decode_chars (data barcode))
      end
  end.

(** What the camera and the keyboard deliver in one iteration of the
    capture loop: the pair returned by [cam.read()] and the value
    [cv.waitKey(1)] returns if it is called. *)
Record tick : Type := mkTick {
  ret : bool;
  frame : image;
  key : Z
}.

Inductive ctrl : Type := Continue | Break.

(** The body of [while True:]. *)
Definition loop_body (t : tick) (w : world) : ctrl * world :=
  let w := emit CamRead w in
  if negb (ret t) then (Break, print "Failed to capture" w)
  else
    let w := emit (ImShow "Scan") w in
    let w := emit (WaitKey 1) w in
    let k := key t in
    if k mod 256 =? 27 then (Break, emit DestroyAllWindows w)
    else if (k mod 256 =? 13) || (k mod 256 =? 32) then
      (Break, emit DestroyAllWindows (imwrite capture_file (frame t) w))
    else (Continue, w).

(** The loop from iteration [i] on, for at most [fuel] iterations;
    [None] when it is still running after them. *)
Fixpoint capture_loop (inputs : nat -> tick) (fuel i : nat) (w : world) : option world :=
  match fuel with
  | O => None
  | S fuel' =>
      match loop_body (inputs i) w with
      | (Break, w') => Some w'
      | (Continue, w') => capture_loop inputs fuel' (S i) w'
      end
  end.

Definition decode_barcode (inputs : nat -> tick) (fuel : nat) (w : world)
  : option (res string * world) :=
  let w := emit (VideoCapture 0) w in
  match capture_loop inputs fuel O w with
  | None => None
  | Some w' => Some (read_bar capture_file w')
  end.

(** [render(request, template, context)]: the page is determined by the
    template and the context it is given. *)
Record page : Type := mkPage {
  template : string;
  context : list (string * string)
}.

(** [scanner_view(request)] *)
Definition scanner_view : page :=
  {| template := "index.html"; context := [] |}.

(** [scanned(request)]: an exception of [decode_barcode] goes through. *)
Definition scanned (inputs : nat -> tick) (fuel : nat) (w : world)
  : option (res page * world) :=
  match decode_barcode inputs fuel w with
  | None => None
  | Some (inl e, w') => Some (inl e, w')
  | Some (inr id, w') =>
      Some (inr {| template := "index.html"; context := [("decoded", id)] |}, w')
  end.

(** The condition under which an iteration leaves the loop. *)
Definition stops (t : tick) : bool :=
  negb (ret t) || (key t mod 256 =? 27) || (key t mod 256 =? 13) || (key t mod 256 =? 32).

(** The calls one iteration makes, in order. *)
Definition tick_events (t : tick) : list event :=
  if negb (ret t) then [CamRead; Print "Failed to capture"]
  else if key t mod 256 =? 27 then [CamRead; ImShow "Scan"; WaitKey 1; DestroyAllWindows]
  else if (key t mod 256 =? 13) || (key t mod 256 =? 32) then
    [CamRead; ImShow "Scan"; WaitKey 1; ImWrite capture_file; DestroyAllWindows]
  else [CamRead; ImShow "Scan"; WaitKey 1].

(** The calls of iterations [i], [i+1], ..., [i+count-1]. *)
Definition loop_events (inputs : nat -> tick) (i count : nat) : list event :=
  concat (map (fun j => tick_events (inputs j)) (seq i count)).

(** The iteration saves the frame: capture succeeded and Enter or Space
    was pressed. *)
Definition saves (t : tick) : bool :=
  ret t && negb (key t mod 256 =? 27) && ((key t mod 256 =? 13) || (key t mod 256 =? 32)).

End Scanner.

Arguments mkWorld {image}.
Arguments files {image}.
Arguments stdout {image}.
Arguments log {image}.
Arguments mkTick {image}.
Arguments ret {image}.
Arguments frame {image}.
Arguments key {image}.
Arguments emit {image}.
Arguments print {image}.
Arguments stops {image}.
Arguments tick_events {image}.
Arguments loop_events {image}.
Arguments saves {image}.

End Scanner.

(** * The Django backend *)

Module Django.

(** ** Python values

    The values that travel in JSON bodies, keyword arguments and response
    payloads.  A [VDict] lists the items of a Python [dict] (distinct keys,
    insertion order).  JSON numbers are restricted to integers. *)
#[warnings="-register-all"]
Inductive pyval : Type :=
| VNone
| VBool (b : bool)
| VInt (z : Z)
| VStr (s : string)
| VList (items : list pyval)
| VDict (items : list (string * pyval)).

Fixpoint assoc {A} (k : string) (kv : list (string * A)) : option A :=
  match kv with
  | [] => None
  | (k', v) :: kv' => if String.eqb k k' then Some v else assoc k kv'
  end.

(** [d[key]] with a string key: [KeyError] on a dict without the key,
    [TypeError] on every other value. *)
Definition getitem (d : pyval) (k : string) : res pyval :=
  match d with
  | VDict kv => match assoc k kv with Some v => inr v | None => inl (KeyError k) end
  | _ => inl TypeError
  end.

Definition is_dict (v : pyval) : bool :=
  match v with VDict _ => true | _ => false end.

(** [v == n] for an integer literal [n]; [bool] is a subclass of [int]. *)
Definition eq_int (v : pyval) (n : Z) : bool :=
  match v with
  | VInt z => z =? n
  | VBool b => (if b then 1 else 0) =? n
  | _ => false
  end.

(** Equality of the scalar values that model fields hold. *)
Definition scalar_eqb (a b : pyval) : bool :=
  match a, b with
  | VNone, VNone => true
  | VBool x, VBool y => Bool.eqb x y
  | VInt x, VInt y => x =? y
  | VStr x, VStr y => String.eqb x y
  | _, _ => false
  end.

(** ** HTTP *)

Record request : Type := mkRequest {
  method : string;
  (** the body as [JSONParser] reads it; [None] when it is not JSON *)
  body : option pyval
}.

Record HttpResponse : Type := mkResponse {
  content : pyval;
  status : Z
}.

Definition default_safe : bool := true.
Definition default_status : Z := 200.

(** [JsonResponse(data, safe=..., status=...)]: with [safe] set, anything
    but a [dict] is rejected with [TypeError]. *)
Definition JsonResponse (data : pyval) (safe : bool) (status : Z) : res HttpResponse :=
  if safe && negb (is_dict data) then inl TypeError
  else inr {| content := data; status := status |}.

(** [JSONParser().parse(request)] *)
Definition parse (r : request) : res pyval :=
  match body r with Some v => inr v | None => inl ParseError end.

(** ** models.py *)

Inductive ftype : Type :=
| CharField (max_length : Z)
| IntegerField
| AutoField
| BooleanField
| TimeField
| ForeignKey (to : string).

Module Student.
Record t : Type := mk {
    student_id : string;
    name : string;
    department : string;
    year_of_study : Z;
    campus : string;
    section : Z
  }.
Definition fields : list (string * ftype) :=
    [("student_id", CharField 15); ("name", CharField 20); ("department", CharField 20);
     ("year_of_study", IntegerField); ("campus", CharField 20); ("section", IntegerField)].
Definition pk_name : string := "student_id".
Definition field_value (r : t) (f : string) : pyval :=
    if String.eqb f "student_id" then VStr (student_id r)
    else if String.eqb f "name" then VStr (name r)
    else if String.eqb f "department" then VStr (department r)
    else if String.eqb f "year_of_study" then VInt (year_of_study r)
    else if String.eqb f "campus" then VStr (campus r)
    else if String.eqb f "section" then VInt (section r)
    else VNone.
End Student.

Module User.
Record t : Type := mk {
    id : Z;
    name : string;
    username : string
  }.
Definition fields : list (string * ftype) :=
    [("id", AutoField); ("name", CharField 20); ("username", CharField 20)].
Definition pk_name : string := "id".
Definition field_value (r : t) (f : string) : pyval :=
    if String.eqb f "id" then VInt (id r)
    else if String.eqb f "name" then VStr (name r)
    else if String.eqb f "username" then VStr (username r)
    else VNone.
(** the fields a request can set: [id] is an [AutoField] *)
Record data : Type := mkData { d_name : string; d_username : string }.
End User.

Module Schedule.
Definition MONDAY : string := "MN".
Definition TUESDAY : string := "TU".
Definition WEDNESDAY : string := "WN".
Definition THURSDAY : string := "TH".
Definition FRIDAY : string := "FR".
Definition SATUARDAY : string := "ST".
Definition SUNDAY : string := "SN".
Definition DAY_CHOICES : list (string * string) :=
    [(MONDAY, "Monday"); (TUESDAY, "Tuesday"); (WEDNESDAY, "Wednesday");
     (THURSDAY, "Thursday"); (FRIDAY, "Friday"); (SATUARDAY, "Satuarday");
     (SUNDAY, "Sunday")].
Record t : Type := mk {
    schedule_id : Z;
    batch : Z;
    department : string;
    section : Z;
    campus : string;
    DAY : string;
    (** a [datetime.time], in its ISO rendering *)
    time : string
  }.
Definition fields : list (string * ftype) :=
    [("schedule_id", AutoField); ("batch", IntegerField); ("department", CharField 20);
     ("section", IntegerField); ("campus", CharField 20); ("DAY", CharField 2);
     ("time", TimeField)].
Definition pk_name : string := "schedule_id".
Definition field_value (r : t) (f : string) : pyval :=
    if String.eqb f "schedule_id" then VInt (schedule_id r)
    else if String.eqb f "batch" then VInt (batch r)
    else if String.eqb f "department" then VStr (department r)
    else if String.eqb f "section" then VInt (section r)
    else if String.eqb f "campus" then VStr (campus r)
    else if String.eqb f "DAY" then VStr (DAY r)
    else if String.eqb f "time" then VStr (time r)
    else VNone.
(** Keyword arguments of the constructor other than the [AutoField];
    [DAY] may be left out. *)
Record data : Type := mkData {
    d_batch : Z;
    d_department : string;
    d_section : Z;
    d_campus : string;
    d_DAY : option string;
    d_time : string
  }.
(** The constructor call with keyword arguments [d] and key [k]: a field
    left out takes its [default=]. *)
Definition new (k : Z) (d : data) : t :=
    {| schedule_id := k; batch := d_batch d; department := d_department d;
       section := d_section d; campus := d_campus d;
       DAY := default MONDAY (d_DAY d); time := d_time d |}.
(** [setattr(instance, attr, value)] for every item of [data] *)
Definition update (r : t) (d : data) : t :=
    {| schedule_id := schedule_id r; batch := d_batch d; department := d_department d;
       section := d_section d; campus := d_campus d;
       DAY := default (DAY r) (d_DAY d); time := d_time d |}.
End Schedule.

Module MealStatus.
Record t : Type := mk {
    (** the key of the referenced [Student] *)
    student_id : string;
    breakfast : bool;
    lunch : bool;
    dinner : bool
  }.
Definition fields : list (string * ftype) :=
    [("student_id", ForeignKey "Student"); ("breakfast", BooleanField);
     ("lunch", BooleanField); ("dinner", BooleanField)].
Definition pk_name : string := "student_id".
Definition field_value (r : t) (f : string) : pyval :=
    if String.eqb f "student_id" then VStr (student_id r)
    else if String.eqb f "breakfast" then VBool (breakfast r)
    else if String.eqb f "lunch" then VBool (lunch r)
    else if String.eqb f "dinner" then VBool (dinner r)
    else VNone.
Record data : Type := mkData {
    d_student_id : string;
    d_breakfast : option bool;
    d_lunch : option bool;
    d_dinner : option bool
  }.
(** The constructor call with keyword arguments [d]: a flag left out
    takes its [default=False]. *)
Definition new (d : data) : t :=
    {| student_id := d_student_id d;
       breakfast := default false (d_breakfast d);
       lunch := default false (d_lunch d);
       dinner := default false (d_dinner d) |}.
Definition update (r : t) (d : data) : t :=
    {| student_id := d_student_id d;
       breakfast := default (breakfast r) (d_breakfast d);
       lunch := default (lunch r) (d_lunch d);
       dinner := default (dinner r) (d_dinner d) |}.
End MealStatus.

(** What the object manager needs to know about a model class. *)
Class Model (R : Type) : Type := {
  model_name : string;
  model_fields : list (string * ftype);
  model_pk : string;
  model_value : R -> string -> pyval
}.

#[global] Instance Student_model : Model Student.t :=
  {| model_name := "Student"; model_fields := Student.fields;
     model_pk := Student.pk_name; model_value := Student.field_value |}.
#[global] Instance User_model : Model User.t :=
  {| model_name := "User"; model_fields := User.fields;
     model_pk := User.pk_name; model_value := User.field_value |}.
#[global] Instance Schedule_model : Model Schedule.t :=
  {| model_name := "Schedule"; model_fields := Schedule.fields;
     model_pk := Schedule.pk_name; model_value := Schedule.field_value |}.
#[global] Instance MealStatus_model : Model MealStatus.t :=
  {| model_name := "MealStatus"; model_fields := MealStatus.fields;
     model_pk := MealStatus.pk_name; model_value := MealStatus.field_value |}.

(** ** The database

    A table is the list of its rows in storage order.  The two [AutoField]
    keys are drawn from sequences that never hand out a value twice. *)
Record db : Type := mkDb {
  students : list Student.t;
  users : list User.t;
  schedules : list Schedule.t;
  statuses : list MealStatus.t;
  user_seq : Z;
  schedule_seq : Z
}.

Definition empty_db : db :=
  {| students := []; users := []; schedules := []; statuses := [];
     user_seq := 0; schedule_seq := 0 |}.

(** ** Computations that read and write the database and may raise *)

Definition M (A : Type) : Type := db -> res A * db.

Definition mret {A} (a : A) : M A := fun d => (inr a, d).

Definition raise {A} (e : exn) : M A := fun d => (inl e, d).

Definition bind {A B} (c : M A) (k : A -> M B) : M B :=
  fun d => match c d with
           | (inr a, d') => k a d'
           | (inl e, d') => (inl e, d')
           end.

Definition lift {A} (r : res A) : M A := fun d => (r, d).

Definition gets {A} (f : db -> A) : M A := fun d => (inr (f d), d).

Definition modify (f : db -> db) : M unit := fun d => (inr tt, f d).

#[global] Instance M_ret : MRet M := @mret.
#[global] Instance M_bind : MBind M := fun A B k c => bind c k.

(** ** Rows and keys *)

Section Table.
Context {R K : Type} `{EqDecision K} (pk : R -> K).

Definition has_pk (k : K) (rows : list R) : bool :=
  bool_decide (k ∈ pk <$> rows).

(** [INSERT]: the key must be new. *)
Definition insert_row (model : string) (r : R) (rows : list R) : res (list R) :=
  if has_pk (pk r) rows then inl (IntegrityError model) else inr (rows ++ [r]).

(** [Model.save()] of an instance with its key set: [UPDATE] the row with
    that key, [INSERT] when there is none. *)
Definition save_row (r : R) (rows : list R) : list R :=
  if has_pk (pk r) rows
  then (fun r' => if decide (pk r' = pk r) then r else r') <$> rows
  else rows ++ [r].

Definition delete_row (k : K) (rows : list R) : list R :=
  filter (fun r => pk r ≠ k) rows.

End Table.

(** How the URL resolver applies a regular expression that ends in [$]:
    with [re.search], or, in the releases that carry the 2021 fix of the
    resolver, with [re.fullmatch]. *)
Inductive matching : Type := Search | Fullmatch.

(** ** The parts of Django and the REST framework left open

    [url_matching] is the resolver's way of matching.  [get_prep_value] turns a lookup value into the value stored for a
    field of the given type, or raises.  [*_is_valid] is
    [Serializer(instance, data=...).is_valid()] together with the
    [validated_data] it leaves behind: [None] is [False]. *)
Class Framework : Type := {
  url_matching : matching;
  get_prep_value : ftype -> pyval -> res pyval;
  StudentSerializer_is_valid : db -> option Student.t -> pyval -> option Student.t;
  UserSerializer_is_valid : db -> option User.t -> pyval -> option User.data;
  ScheduleSerializer_is_valid : db -> option Schedule.t -> pyval -> option Schedule.data;
  MealStatusSerializer_is_valid : db -> option MealStatus.t -> pyval -> option MealStatus.data
}.

(** ** serializers.py: the [.data] of each serializer, in [Meta.fields] order *)

Definition UserSerializer_data (r : User.t) : pyval :=
  VDict [("id", VInt (User.id r)); ("name", VStr (User.name r));
         ("username", VStr (User.username r))].

Definition StudentSerializer_data (r : Student.t) : pyval :=
  VDict [("student_id", VStr (Student.student_id r)); ("name", VStr (Student.name r));
         ("department", VStr (Student.department r));
         ("year_of_study", VInt (Student.year_of_study r));
         ("campus", VStr (Student.campus r)); ("section", VInt (Student.section r))].

Definition ScheduleSerializer_data (r : Schedule.t) : pyval :=
  VDict [("department", VStr (Schedule.department r)); ("batch", VInt (Schedule.batch r));
         ("campus", VStr (Schedule.campus r)); ("section", VInt (Schedule.section r));
         ("time", VStr (Schedule.time r)); ("DAY", VStr (Schedule.DAY r))].

Definition MealStatusSerializer_data (r : MealStatus.t) : pyval :=
  VDict [("student_id", VStr (MealStatus.student_id r));
         ("breakfast", VBool (MealStatus.breakfast r));
         ("lunch", VBool (MealStatus.lunch r)); ("dinner", VBool (MealStatus.dinner r))].

Definition many {R} (data : R -> pyval) (rows : list R) : pyval :=
  VList (map data rows).

Section ORM.
Context {F : Framework}.

(** *** [Model.objects.get] with keyword arguments *)

(** A keyword names a field of the model, or is [pk]. *)
Definition resolve_field `{Model R} (kw : string) : res (string * ftype) :=
  let name := if String.eqb kw "pk" then model_pk else kw in
  match assoc name model_fields with
  | Some ty => inr (name, ty)
  | None => inl (FieldError kw)
  end.

(** The conjunction of the exact-match conditions, built keyword by
    keyword (callers list them in sorted order, as [Q] does). *)
Fixpoint build_filter `{Model R} (kwargs : list (string * pyval)) : res (R -> bool) :=
  match kwargs with
  | [] => inr (fun _ => true)
  | (kw, v) :: rest =>
      match resolve_field kw with
      | inl e => inl e
      | inr (name, ty) =>
          match get_prep_value ty v with
          | inl e => inl e
          | inr v' =>
              match build_filter rest with
              | inl e => inl e
              | inr p => inr (fun r => scalar_eqb (model_value r name) v' && p r)
              end
          end
      end
  end.

(** One row or an exception: never [None]. *)
Definition objects_get `{Model R} (kwargs : list (string * pyval)) (rows : list R) : res R :=
  match build_filter kwargs with
  | inl e => inl e
  | inr p =>
      match List.filter p rows with
      | [] => inl (DoesNotExist model_name)
      | [r] => inr r
      | _ => inl (MultipleObjectsReturned model_name)
      end
  end.

Definition get_from {R} `{Model R} (table : db -> list R) (kwargs : list (string * pyval)) : M R :=
  fun d => (objects_get kwargs (table d), d).

End ORM.

(** *** Writing rows *)

Definition set_students (rows : list Student.t) (d : db) : db :=
  {| students := rows; users := users d; schedules := schedules d;
     statuses := statuses d; user_seq := user_seq d; schedule_seq := schedule_seq d |}.

Definition set_users (rows : list User.t) (seq : Z) (d : db) : db :=
  {| students := students d; users := rows; schedules := schedules d;
     statuses := statuses d; user_seq := seq; schedule_seq := schedule_seq d |}.

Definition set_schedules (rows : list Schedule.t) (seq : Z) (d : db) : db :=
  {| students := students d; users := users d; schedules := rows;
     statuses := statuses d; user_seq := user_seq d; schedule_seq := seq |}.

Definition set_statuses (rows : list MealStatus.t) (d : db) : db :=
  {| students := students d; users := users d; schedules := schedules d;
     statuses := rows; user_seq := user_seq d; schedule_seq := schedule_seq d |}.

(** [Student.objects.create]: an [INSERT] with the given key. *)
Definition Student_create (s : Student.t) : M unit :=
  fun d => match insert_row Student.student_id "Student" s (students d) with
           | inl e => (inl e, d)
           | inr rows => (inr tt, set_students rows d)
           end.

Definition Student_save (s : Student.t) : M unit :=
  modify (fun d => set_students (save_row Student.student_id s (students d)) d).

(** [student.delete()]: the collector first deletes the [MealStatus] rows
    that reference the student ([on_delete=CASCADE]), then the student. *)
Definition Student_delete (s : Student.t) : M unit :=
  modify (fun d =>
    let d := set_statuses
               (filter (fun m => MealStatus.student_id m ≠ Student.student_id s) (statuses d)) d in
    set_students (delete_row Student.student_id (Student.student_id s) (students d)) d).

(** An [INSERT] without a key takes the next value of the sequence. *)
Definition User_create (v : User.data) : M User.t :=
  fun d =>
    let k := user_seq d + 1 in
    let u := {| User.id := k; User.name := User.d_name v; User.username := User.d_username v |} in
    (inr u, set_users (users d ++ [u]) k d).

(** Saving a row with an explicit key moves the sequence up to it. *)
Definition User_save (u : User.t) : M unit :=
  modify (fun d => set_users (save_row User.id u (users d)) (Z.max (user_seq d) (User.id u)) d).

Definition User_delete (u : User.t) : M unit :=
  modify (fun d => set_users (delete_row User.id (User.id u) (users d)) (user_seq d) d).

Definition Schedule_create (v : Schedule.data) : M Schedule.t :=
  fun d =>
    let k := schedule_seq d + 1 in
    let s := Schedule.new k v in
    (inr s, set_schedules (schedules d ++ [s]) k d).

Definition Schedule_save (s : Schedule.t) : M unit :=
  modify (fun d => set_schedules (save_row Schedule.schedule_id s (schedules d))
                                 (Z.max (schedule_seq d) (Schedule.schedule_id s)) d).

Definition Schedule_delete (s : Schedule.t) : M unit :=
  modify (fun d => set_schedules (delete_row Schedule.schedule_id (Schedule.schedule_id s) (schedules d))
                                 (schedule_seq d) d).

(** The foreign key must reference a stored [Student]. *)
Definition references_student (m : MealStatus.t) (d : db) : bool :=
  has_pk Student.student_id (MealStatus.student_id m) (students d).

Definition MealStatus_create (m : MealStatus.t) : M unit :=
  fun d =>
    if references_student m d then
      match insert_row MealStatus.student_id "MealStatus" m (statuses d) with
      | inl e => (inl e, d)
      | inr rows => (inr tt, set_statuses rows d)
      end
    else (inl (IntegrityError "MealStatus"), d).

Definition MealStatus_save (m : MealStatus.t) : M unit :=
  fun d =>
    if references_student m d
    then (inr tt, set_statuses (save_row MealStatus.student_id m (statuses d)) d)
    else (inl (IntegrityError "MealStatus"), d).

Definition MealStatus_delete (m : MealStatus.t) : M unit :=
  modify (fun d => set_statuses (delete_row MealStatus.student_id (MealStatus.student_id m) (statuses d)) d).

(** ** views.py *)

Definition respond (data : pyval) (safe : bool) (status : Z) : M HttpResponse :=
  lift (JsonResponse data safe status).

(** The value of a variable bound to an object, as [x is not None] sees it. *)
Definition not_None {A} (x : A) : option A := Some x.

Section Views.
Context {F : Framework}.

Definition studentApi (request : request) (id : pyval) : M HttpResponse :=
  if String.eqb (method request) "GET" then
    students ← gets students;
    respond (many StudentSerializer_data students) false default_status
  else if String.eqb (method request) "POST" then
    student_data ← lift (parse request);
    valid ← gets (fun d => StudentSerializer_is_valid d None student_data);
    match valid with
    | Some validated =>
        Student_create validated;;
        respond (VStr "Student Added Sucessfully!") false default_status
    | None => respond (VStr "Failed to Add.") default_safe default_status
    end
  else if String.eqb (method request) "PUT" then
    student_data ← lift (parse request);
    key ← lift (getitem student_data "student_id");
    student ← get_from students [("id", key)];
    valid ← gets (fun d => StudentSerializer_is_valid d (Some student) student_data);
    match valid with
    | Some validated =>
        Student_save validated;;
        respond (VStr "Data Updated Sucessfully!") false default_status
    | None => respond (VStr "Failed to Update.") false default_status
    end
  else if String.eqb (method request) "DELETE" then
    student_data ← lift (parse request);
    key ← lift (getitem student_data "student_id");
    student ← get_from students [("id", key); ("safe", VBool false)];
    match not_None student with
    | Some student =>
        Student_delete student;;
        respond (VStr "Data Deleted Sucessfully!") false default_status
    | None => respond (VStr "No such a data.") false default_status
    end
  else raise ValueError.

Definition userApi (request : request) (id : pyval) : M HttpResponse :=
  if String.eqb (method request) "GET" then
    if eq_int id (-1) then
      users ← gets users;
      respond (many UserSerializer_data users) false default_status
    else
      user ← get_from users [("id", id)];
      match not_None user with
      | Some user => raise (UnboundLocalError "users_serializer")
      | None => respond (VStr "No such user") false default_status
      end
  else if String.eqb (method request) "POST" then
    user_data ← lift (parse request);
    valid ← gets (fun d => UserSerializer_is_valid d None user_data);
    match valid with
    | Some validated =>
        User_create validated;;
        respond (VStr "User Added Sucessfully!") false 201
    | None => respond (VStr "Failed to Add.") false 400
    end
  else if String.eqb (method request) "PUT" then
    user_data ← lift (parse request);
    key ← lift (getitem user_data "id");
    user ← get_from users [("id", key)];
    valid ← gets (fun d => UserSerializer_is_valid d (Some user) user_data);
    match valid with
    | Some validated =>
        User_save {| User.id := User.id user; User.name := User.d_name validated;
                     User.username := User.d_username validated |};;
        respond (VStr "Data Updated Sucessfully!") false default_status
    | None => respond (VStr "Failed to Update.") false default_status
    end
  else if String.eqb (method request) "DELETE" then
    (* [print(id)] writes to the server console only *)
    user_data ← lift (parse request);
    key ← lift (getitem user_data "id");
    user ← get_from users [("id", key)];
    User_delete user;;
    respond (VStr "Data Deleted Sucessfully!") false default_status
  else raise ValueError.

Definition scheduleApi (request : request) (id : pyval) : M HttpResponse :=
  if String.eqb (method request) "GET" then
    schedules ← gets schedules;
    respond (many ScheduleSerializer_data schedules) false default_status
  else if String.eqb (method request) "POST" then
    schedule_data ← lift (parse request);
    valid ← gets (fun d => ScheduleSerializer_is_valid d None schedule_data);
    match valid with
    | Some validated =>
        Schedule_create validated;;
        respond (VStr "Schedule Added Sucessfully!") false default_status
    | None => respond (VStr "Failed to Add.") false default_status
    end
  else if String.eqb (method request) "PUT" then
    schedule_data ← lift (parse request);
    key ← lift (getitem schedule_data "schedule_id");
    schedule ← get_from schedules [("schedule_id", key)];
    valid ← gets (fun d => ScheduleSerializer_is_valid d (Some schedule) schedule_data);
    match valid with
    | Some validated =>
        Schedule_save (Schedule.update schedule validated);;
        respond (VStr "Data Updated Sucessfully!") false default_status
    | None => respond (VStr "Failed to Update.") false default_status
    end
  else if String.eqb (method request) "DELETE" then
    schedule_data ← lift (parse request);
    key ← lift (getitem schedule_data "schedule_id");
    schedule ← get_from schedules [("schedule_id", key)];
    match not_None schedule with
    | Some schedule =>
        Schedule_delete schedule;;
        respond (VStr "Data Deleted Sucessfully!") false default_status
    | None => respond (VStr "No such a data.") false default_status
    end
  else raise ValueError.

Definition mealStatusApi (request : request) (id : pyval) : M HttpResponse :=
  if String.eqb (method request) "GET" then
    if eq_int id (-1) then
      status ← gets statuses;
      respond (many MealStatusSerializer_data status) false default_status
    else
      status ← get_from statuses [("id", id)];
      match not_None status with
      | Some status => respond (MealStatusSerializer_data status) false default_status
      | None => respond (VStr "No such status") false default_status
      end
  else if String.eqb (method request) "POST" then
    status_data ← lift (parse request);
    valid ← gets (fun d => MealStatusSerializer_is_valid d None status_data);
    match valid with
    | Some validated =>
        MealStatus_create (MealStatus.new validated);;
        respond (VStr "Status Added Sucessfully!") false 201
    | None => respond (VStr "Failed to Add.") false 400
    end
  else if String.eqb (method request) "PUT" then
    status_data ← lift (parse request);
    key ← lift (getitem status_data "id");
    status ← get_from statuses [("id", key)];
    valid ← gets (fun d => MealStatusSerializer_is_valid d (Some status) status_data);
    match valid with
    | Some validated =>
        MealStatus_save (MealStatus.update status validated);;
        respond (VStr "Status Updated Sucessfully!") false default_status
    | None => respond (VStr "Failed to Update.") false default_status
    end
  else if String.eqb (method request) "DELETE" then
    status_data ← lift (parse request);
    key ← lift (getitem status_data "student_id");
    status ← get_from statuses [("student_id", key)];
    match not_None status with
    | Some status =>
        MealStatus_delete status;;
        respond (VStr "Data Deleted Sucessfully!") false default_status
    | None => respond (VStr "No such a data.") false default_status
    end
  else raise ValueError.

(** ** urls.py

    The regular expressions of [urlpatterns] use literal text, a character
    class repeated one or more times and the end anchor.  [Group] is the
    same repetition inside capturing parentheses, the form a pattern needs
    to hand a path segment to its view. *)

Inductive atom : Type :=
| Lit (text : string)
| Plus (cls : ascii -> bool)
| Group (cls : ascii -> bool)
| Dollar.

Definition in_range (lo hi c : ascii) : bool :=
  (N.leb (N_of_ascii lo) (N_of_ascii c) && N.leb (N_of_ascii c) (N_of_ascii hi))%N.

(** The class [[a-zA-Z0-9]]. *)
Definition alnum (c : ascii) : bool :=
  in_range "a" "z" c || in_range "A" "Z" c || in_range "0" "9" c.

Fixpoint strip_prefix (p s : string) : option string :=
  match p, s with
  | EmptyString, _ => Some s
  | String a p', String b s' => if Ascii.eqb a b then strip_prefix p' s' else None
  | String _ _, EmptyString => None
  end.

(** [$] matches at the end of the text and before a final newline. *)
Definition at_end (s : string) : bool :=
  match s with
  | EmptyString => true
  | String c EmptyString => Ascii.eqb c "010"
  | _ => false
  end.

Definition anywhere (rest : string) : bool := true.

Definition is_empty (rest : string) : bool :=
  match rest with EmptyString => true | _ => false end.

(** Match the atoms at the start of the text, leaving a rest that [final]
    accepts; the result lists the text of the groups.  Repetition is
    greedy and backtracks. *)
Fixpoint match_here (final : string -> bool) (p : list atom) : string -> option (list string) :=
  match p with
  | [] => fun s => if final s then Some [] else None
  | a :: p' =>
      let k := match_here final p' in
      match a with
      | Lit text => fun s =>
          match strip_prefix text s with Some s' => k s' | None => None end
      | Dollar => fun s => if at_end s then k s else None
      | Plus cls =>
          fix plus (s : string) : option (list string) :=
            match s with
            | EmptyString => None
            | String c s' =>
                if cls c then
                  match plus s' with Some g => Some g | None => k s' end
                else None
            end
      | Group cls => fun s =>
          let grp :=
            fix grp (s : string) : option (string * list string) :=
              match s with
              | EmptyString => None
              | String c s' =>
                  if cls c then
                    match grp s' with
                    | Some (text, g) => Some (String c text, g)
                    | None =>
                        match k s' with
                        | Some g => Some (String c EmptyString, g)
                        | None => None
                        end
                    end
                  else None
              end in
          match grp s with Some (text, g) => Some (text :: g) | None => None end
      end
  end.

(** [re.search]: the leftmost position at which the pattern matches. *)
Fixpoint search (p : list atom) (s : string) : option (list string) :=
  match match_here anywhere p s with
  | Some g => Some g
  | None =>
      match s with
      | EmptyString => None
      | String _ s' => search p s'
      end
  end.

(** The number of capturing groups of a pattern. *)
Definition captures (p : list atom) : nat :=
  length (List.filter (fun a => match a with Group _ => true | _ => false end) p).

Fixpoint all_alnum (s : string) : bool :=
  match s with
  | EmptyString => true
  | String c s' => alnum c && all_alnum s'
  end.

(** [text] differs from [s] at a position both have. *)
Fixpoint mismatch (text s : string) : bool :=
  match text, s with
  | String a text', String b s' => if Ascii.eqb a b then mismatch text' s' else true
  | _, _ => false
  end.

(** [text] differs from every non-empty suffix of [s] in this way. *)
Fixpoint clash (text s : string) : bool :=
  match s with
  | EmptyString => true
  | String _ s' => mismatch text s && clash text s'
  end.

(** [re.fullmatch]: the pattern matches at the start and uses up the text. *)
Definition fullmatch (p : list atom) (s : string) : option (list string) :=
  match_here is_empty p s.

Definition find_match (m : matching) (p : list atom) (s : string) : option (list string) :=
  match m with
  | Search => search p s
  | Fullmatch => fullmatch p s
  end.

Record view : Type := mkView {
  view_name : string;
  view_fn : request -> pyval -> M HttpResponse;
  (** the default of the [id] parameter *)
  view_id : pyval
}.

Definition studentApi_view : view :=
  {| view_name := "studentApi"; view_fn := studentApi; view_id := VInt 0 |}.
Definition userApi_view : view :=
  {| view_name := "userApi"; view_fn := userApi; view_id := VInt (-1) |}.
Definition scheduleApi_view : view :=
  {| view_name := "scheduleApi"; view_fn := scheduleApi; view_id := VInt 0 |}.
Definition mealStatusApi_view : view :=
  {| view_name := "mealStatusApi"; view_fn := mealStatusApi; view_id := VInt (-1) |}.

Definition urlpatterns : list (list atom * view) :=
  [ ([Lit "student/"; Dollar], studentApi_view);
    ([Lit "student/"; Plus alnum; Dollar], studentApi_view);
    ([Lit "user/"; Dollar], userApi_view);
    ([Lit "user/"; Plus alnum; Dollar], userApi_view);
    ([Lit "schedule/"; Dollar], scheduleApi_view);
    ([Lit "schedule/"; Plus alnum; Dollar], scheduleApi_view);
    ([Lit "meal-status/"; Dollar], mealStatusApi_view);
    ([Lit "meal-status/"; Plus alnum; Dollar], mealStatusApi_view) ].

(** The first pattern that matches, with the groups it captured. *)
Fixpoint resolve (m : matching) (patterns : list (list atom * view)) (path : string)
  : option (view * list string) :=
  match patterns with
  | [] => None
  | (p, v) :: rest =>
      match find_match m p path with
      | Some g => Some (v, g)
      | None => resolve m rest path
      end
  end.

(** [view(request, *args)]: captured text is passed positionally, after
    [request]; with nothing captured [id] keeps its default. *)
Definition call_view (v : view) (request : request) (args : list string) : M HttpResponse :=
  match args with
  | [] => view_fn v request (view_id v)
  | [a] => view_fn v request (VStr a)
  | _ => raise TypeError
  end.

Definition dispatch (path : string) (request : request) : M HttpResponse :=
  match resolve url_matching urlpatterns path with
  | None => raise Http404
  | Some (v, args) => call_view v request args
  end.

(** ** Reachable database states

    Every state the application can be in: the empty database, changed by
    any sequence of model operations and of requests. *)

Inductive op : Type :=
| OpStudentCreate (s : Student.t)
| OpStudentSave (s : Student.t)
| OpStudentDelete (s : Student.t)
| OpUserCreate (v : User.data)
| OpUserSave (u : User.t)
| OpUserDelete (u : User.t)
| OpScheduleCreate (v : Schedule.data)
| OpScheduleSave (s : Schedule.t)
| OpScheduleDelete (s : Schedule.t)
| OpStatusCreate (v : MealStatus.data)
| OpStatusSave (m : MealStatus.t)
| OpStatusDelete (m : MealStatus.t).

Definition run_op (o : op) : M unit :=
  match o with
  | OpStudentCreate s => Student_create s
  | OpStudentSave s => Student_save s
  | OpStudentDelete s => Student_delete s
  | OpUserCreate v => User_create v;; mret tt
  | OpUserSave u => User_save u
  | OpUserDelete u => User_delete u
  | OpScheduleCreate v => Schedule_create v;; mret tt
  | OpScheduleSave s => Schedule_save s
  | OpScheduleDelete s => Schedule_delete s
  | OpStatusCreate v => MealStatus_create (MealStatus.new v)
  | OpStatusSave m => MealStatus_save m
  | OpStatusDelete m => MealStatus_delete m
  end.

Inductive reachable : db -> Prop :=
| reach_empty : reachable empty_db
| reach_op d o : reachable d -> reachable (snd (run_op o d))
| reach_request d path request :
    reachable d -> reachable (snd (dispatch path request d)).

End Views.

Arguments reachable : clear implicits.

(** ** A concrete framework

    The behaviour of the framework on plain inputs: integer fields are
    looked up by integers and text fields by strings; a serializer accepts
    a dict that gives every field of [Meta.fields] it requires with a
    value of the field's type and within [max_length] and [choices]. *)

Definition prep (ty : ftype) (v : pyval) : res pyval :=
  match ty, v with
  | (IntegerField | AutoField), VInt z => inr (VInt z)
  | (CharField _ | ForeignKey _ | TimeField), VStr s => inr (VStr s)
  | BooleanField, VBool b => inr (VBool b)
  | _, _ => inl ValueError
  end.

Definition str_field (max_length : Z) (k : string) (data : list (string * pyval)) : option string :=
  match assoc k data with
  | Some (VStr s) =>
      if (0 <? Z.of_nat (String.length s)) && (Z.of_nat (String.length s) <=? max_length)
      then Some s else None
  | _ => None
  end.

Definition int_field (k : string) (data : list (string * pyval)) : option Z :=
  match assoc k data with Some (VInt z) => Some z | _ => None end.

(** An optional flag: absent, or a boolean; [None] when it is something else. *)
Definition flag_field (k : string) (data : list (string * pyval)) : option (option bool) :=
  match assoc k data with
  | None => Some None
  | Some (VBool b) => Some (Some b)
  | Some _ => None
  end.

Definition simple_student (d : db) (instance : option Student.t) (data : pyval) : option Student.t :=
  match data with
  | VDict kv =>
      sid ← str_field 15 "student_id" kv;
      name ← str_field 20 "name" kv;
      department ← str_field 20 "department" kv;
      year ← int_field "year_of_study" kv;
      campus ← str_field 20 "campus" kv;
      section ← int_field "section" kv;
      if has_pk Student.student_id sid (students d)
         && negb (bool_decide (Student.student_id <$> instance = Some sid))
      then None
      else Some (Student.mk sid name department year campus section)
  | _ => None
  end.

Definition simple_user (d : db) (instance : option User.t) (data : pyval) : option User.data :=
  match data with
  | VDict kv =>
      name ← str_field 20 "name" kv;
      username ← str_field 20 "username" kv;
      Some (User.mkData name username)
  | _ => None
  end.

Definition simple_schedule (d : db) (instance : option Schedule.t) (data : pyval)
  : option Schedule.data :=
  match data with
  | VDict kv =>
      department ← str_field 20 "department" kv;
      batch ← int_field "batch" kv;
      campus ← str_field 20 "campus" kv;
      section ← int_field "section" kv;
      time ← str_field 8 "time" kv;
      match assoc "DAY" kv with
      | None => Some (Schedule.mkData batch department section campus None time)
      | Some (VStr day) =>
          if existsb (fun c => String.eqb (fst c) day) Schedule.DAY_CHOICES
          then Some (Schedule.mkData batch department section campus (Some day) time)
          else None
      | Some _ => None
      end
  | _ => None
  end.

Definition simple_status (d : db) (instance : option MealStatus.t) (data : pyval)
  : option MealStatus.data :=
  match data with
  | VDict kv =>
      sid ← str_field 15 "student_id" kv;
      breakfast ← flag_field "breakfast" kv;
      lunch ← flag_field "lunch" kv;
      dinner ← flag_field "dinner" kv;
      if has_pk Student.student_id sid (students d)
         && (negb (has_pk MealStatus.student_id sid (statuses d))
             || bool_decide (MealStatus.student_id <$> instance = Some sid))
      then Some (MealStatus.mkData sid breakfast lunch dinner)
      else None
  | _ => None
  end.

Definition simple : Framework :=
  {| url_matching := Fullmatch;
     get_prep_value := prep;
     StudentSerializer_is_valid := simple_student;
     UserSerializer_is_valid := simple_user;
     ScheduleSerializer_is_valid := simple_schedule;
     MealStatusSerializer_is_valid := simple_status |}.

(** Running a computation: the result and the state it leaves. *)
Definition run {A} (c : M A) (d : db) : res A * db := c d.

(** ** A small database: one student with a meal status *)

Definition example_student : Student.t :=
  Student.mk "UGR/1234/12" "Abebe" "Software" 3 "5killo" 1.

Definition example_db : db :=
  snd (run_op (OpStatusCreate (MealStatus.mkData "UGR/1234/12" None None None))
         (snd (run_op (OpStudentCreate example_student) empty_db))).


(** ** The invariant of the database

    Keys are unique in every table, the sequences are at or above every
    key they handed out, and every [MealStatus] references a stored
    [Student]. *)
Definition consistent (d : db) : Prop :=
  NoDup (Student.student_id <$> students d)
  /\ NoDup (User.id <$> users d)
  /\ NoDup (Schedule.schedule_id <$> schedules d)
  /\ NoDup (MealStatus.student_id <$> statuses d)
  /\ (forall u, u ∈ users d -> User.id u <= user_seq d)
  /\ (forall s, s ∈ schedules d -> Schedule.schedule_id s <= schedule_seq d)
  /\ (forall m, m ∈ statuses d ->
        MealStatus.student_id m ∈ Student.student_id <$> students d).

(** A computation keeps the invariant, whether it returns or raises. *)
Definition preserves {A} (c : M A) : Prop :=
  forall d, consistent d -> consistent (snd (c d)).

(** The key identifies the row. *)
Definition identifies {R K} (pk : R -> K) (rows : list R) : Prop :=
  forall a b, a ∈ rows -> b ∈ rows -> pk a = pk b -> a = b.

(** A computation only reads the database. *)
Definition reads_only {A} (c : M A) : Prop :=
  forall d, snd (c d) = d.

(** A computation that raises leaves the database as it found it. *)
Definition unchanged_on_raise {A} (c : M A) : Prop :=
  forall d e d', c d = (inl e, d') -> d' = d.

Definition never_raises {A} (c : M A) : Prop :=
  forall d, exists a d', c d = (inr a, d').

(** Every response a computation returns satisfies [P]. *)
Definition answers {A} (P : A -> Prop) (c : M A) : Prop :=
  forall d a d', c d = (inr a, d') -> P a.

(** The status codes a view may answer with, given the method. *)
Definition expected_status (method : string) (r : HttpResponse) : Prop :=
  status r = 200 \/ (method = "POST" /\ (status r = 201 \/ status r = 400)).

(** The methods that read a body. *)
Definition writing (method : string) : Prop :=
  method = "POST" \/ method = "PUT" \/ method = "DELETE".

(** The request of a method with a parsed body. *)
Definition json_request (method : string) (data : pyval) : request :=
  {| method := method; body := Some data |}.

End Django.

(** * Properties of the scanner *)

Section ScannerProperties.
Import Scanner.

Variable image : Type.
Variable decode : image -> list Decoded.
Variable jpeg : image -> image.

Abbreviation world := (world image).
Abbreviation tick := (tick image).

Lemma append_char_assoc (a : string) (c : ascii) (b : string) :
  (a +:+ String c EmptyString) +:+ b = a +:+ String c b.
Proof.
  induction a as [|x a IH]; [reflexivity|].
  change (String x ((a +:+ String c EmptyString) +:+ b) = String x (a +:+ String c b)).
  now rewrite IH.
Qed.

Lemma append_empty_r (a : string) : a +:+ EmptyString = a.
Proof.
  induction a as [|x a IH]; [reflexivity|].
  change (String x (a +:+ EmptyString) = String x a).
  now rewrite IH.
Qed.

Lemma decode_chars_from (d : list Byte.byte) (acc : string) :
  fold_left (fun dec i => dec +:+ String (chr i) EmptyString) d acc
  = acc +:+ string_of_list_ascii (map ascii_of_byte d).
Proof.
  revert acc. induction d as [|i d IH]; intros acc; simpl.
  - now rewrite append_empty_r.
  - rewrite IH. apply append_char_assoc.
Qed.

Lemma decode_chars_map (d : list Byte.byte) :
  decode_chars d = string_of_list_ascii (map ascii_of_byte d).
Proof. unfold decode_chars. now rewrite decode_chars_from. Qed.

(** *** One iteration *)

Lemma stops_iff (t : tick) :
  stops t = true <->
  ret t = false \/ key t mod 256 = 27 \/ key t mod 256 = 13 \/ key t mod 256 = 32.
Proof.
  unfold stops. rewrite !orb_true_iff, negb_true_iff, !Z.eqb_eq. tauto.
Qed.

Lemma loop_body_ctrl (t : tick) (w : world) :
  fst (loop_body image jpeg t w) = if stops t then Break else Continue.
Proof.
  unfold loop_body, stops.
  destruct (ret t); simpl; [|reflexivity].
  destruct (key t mod 256 =? 27); simpl; [reflexivity|].
  destruct ((key t mod 256 =? 13) || (key t mod 256 =? 32)); reflexivity.
Qed.

Lemma loop_body_log (t : tick) (w : world) :
  log (snd (loop_body image jpeg t w)) = log w ++ tick_events t.
Proof.
  unfold loop_body, tick_events.
  destruct (ret t); simpl; [|now rewrite <- app_assoc].
  destruct (key t mod 256 =? 27); simpl; [now rewrite <- !app_assoc|].
  destruct ((key t mod 256 =? 13) || (key t mod 256 =? 32)); simpl;
    now rewrite <- !app_assoc.
Qed.

Lemma loop_body_files (t : tick) (w : world) :
  files (snd (loop_body image jpeg t w))
  = if saves t then <[capture_file := jpeg (frame t)]> (files w) else files w.
Proof.
  unfold loop_body, saves.
  destruct (ret t); simpl; [|reflexivity].
  destruct (key t mod 256 =? 27); simpl; [reflexivity|].
  destruct ((key t mod 256 =? 13) || (key t mod 256 =? 32)); reflexivity.
Qed.

Lemma loop_body_stdout (t : tick) (w : world) :
  stdout (snd (loop_body image jpeg t w))
  = if ret t then stdout w else stdout w ++ ["Failed to capture"].
Proof.
  unfold loop_body.
  destruct (ret t); simpl; [|reflexivity].
  destruct (key t mod 256 =? 27); simpl; [reflexivity|].
  destruct ((key t mod 256 =? 13) || (key t mod 256 =? 32)); reflexivity.
Qed.

Lemma saves_stops (t : tick) : saves t = true -> stops t = true.
Proof.
  unfold saves, stops. destruct (ret t), (key t mod 256 =? 27),
    (key t mod 256 =? 13), (key t mod 256 =? 32); simpl; congruence.
Qed.

(** *** The loop *)

(** While no iteration meets the exit condition the loop is still running. *)
Lemma capture_loop_running (inputs : nat -> tick) (fuel : nat) :
  forall (i : nat) (w : world),
    (forall j, (i <= j < i + fuel)%nat -> stops (inputs j) = false) ->
    capture_loop image jpeg inputs fuel i w = None.
Proof.
  induction fuel as [|fuel IH]; intros i w Hrun; simpl; [reflexivity|].
  pose proof (loop_body_ctrl (inputs i) w) as Hc.
  rewrite (Hrun i) in Hc by lia.
  destruct (loop_body image jpeg (inputs i) w) as [c w1]; simpl in Hc; subst c.
  apply IH. intros j Hj. apply Hrun. lia.
Qed.

(** The loop ends in the first iteration [n] that meets the exit condition,
    having made the calls of iterations [i..n]; only that iteration can
    have touched the disk or the console. *)
Lemma capture_loop_exit (inputs : nat -> tick) (fuel : nat) :
  forall (i : nat) (w w' : world),
    capture_loop image jpeg inputs fuel i w = Some w' ->
    exists n : nat,
      (i <= n < i + fuel)%nat /\
      stops (inputs n) = true /\
      (forall j, (i <= j < n)%nat -> stops (inputs j) = false) /\
      w' = snd (loop_body image jpeg (inputs n)
                  (mkWorld (files w) (stdout w) (log w ++ loop_events inputs i (n - i)))).
Proof.
  induction fuel as [|fuel IH]; intros i w w' Hloop; simpl in Hloop; [discriminate|].
  pose proof (loop_body_ctrl (inputs i) w) as Hc.
  pose proof (loop_body_log (inputs i) w) as Hl.
  pose proof (loop_body_files (inputs i) w) as Hf.
  pose proof (loop_body_stdout (inputs i) w) as Ho.
  destruct (loop_body image jpeg (inputs i) w) as [c w1] eqn:Hbody; simpl in *.
  destruct (stops (inputs i)) eqn:Hstop; subst c.
  - injection Hloop as <-. exists i. repeat split; [lia | lia | exact Hstop | intros; lia |].
    replace (i - i)%nat with O by lia. unfold loop_events; simpl.
    rewrite app_nil_r. destruct w; simpl. now rewrite Hbody.
  - apply IH in Hloop as (n & Hn & Hsn & Hbefore & ->).
    exists n. repeat split; [lia | lia | exact Hsn | |].
    + intros j Hj. destruct (Nat.eq_dec j i) as [->|]; [exact Hstop | apply Hbefore; lia].
    + assert (saves (inputs i) = false) as Hsv.
      { destruct (saves (inputs i)) eqn:E; [apply saves_stops in E; congruence | reflexivity]. }
      assert (ret (inputs i) = true) as Hret.
      { unfold stops in Hstop. destruct (ret (inputs i)); [reflexivity | discriminate]. }
      rewrite Hsv in Hf. rewrite Hret in Ho. rewrite Hf, Ho, Hl.
      replace (n - i)%nat with (S (n - S i)) by lia.
      unfold loop_events; simpl. now rewrite app_assoc.
Qed.

Lemma capture_loop_total (inputs : nat -> tick) (n : nat) :
  forall (fuel i : nat) (w : world),
    (i <= n < i + fuel)%nat ->
    stops (inputs n) = true ->
    is_Some (capture_loop image jpeg inputs fuel i w).
Proof.
  intros fuel. induction fuel as [|fuel IH]; intros i w Hn Hstop; [lia|]. simpl.
  pose proof (loop_body_ctrl (inputs i) w) as Hc.
  destruct (loop_body image jpeg (inputs i) w) as [c w1]; simpl in Hc.
  destruct (stops (inputs i)) eqn:Hi; subst c; [eauto|].
  apply IH; [|exact Hstop].
  destruct (Nat.eq_dec n i) as [->|]; [congruence | lia].
Qed.

(** *** The calls the loop makes *)

Lemma tick_events_running (t : tick) :
  stops t = false -> tick_events t = [CamRead; ImShow "Scan"; WaitKey 1].
Proof.
  unfold stops, tick_events.
  destruct (ret t), (key t mod 256 =? 27), (key t mod 256 =? 13), (key t mod 256 =? 32);
    simpl; congruence.
Qed.

Lemma tick_events_reads (t : tick) :
  length (filter (fun e => e = CamRead) (tick_events t)) = 1%nat.
Proof.
  unfold tick_events.
  destruct (ret t), (key t mod 256 =? 27), ((key t mod 256 =? 13) || (key t mod 256 =? 32));
    reflexivity.
Qed.

Lemma tick_events_write (t : tick) :
  ImWrite capture_file ∈ tick_events t <-> saves t = true.
Proof.
  unfold tick_events, saves.
  destruct (ret t), (key t mod 256 =? 27), ((key t mod 256 =? 13) || (key t mod 256 =? 32));
    simpl; split; intros H; try reflexivity; try discriminate;
    try (repeat constructor; fail);
    repeat (apply elem_of_cons in H as [H|H]; [discriminate|]);
    now apply elem_of_nil in H.
Qed.

Lemma tick_events_local (t : tick) :
  Forall (fun e => is_network e = false) (tick_events t).
Proof.
  unfold tick_events.
  destruct (ret t), (key t mod 256 =? 27), ((key t mod 256 =? 13) || (key t mod 256 =? 32));
    repeat constructor.
Qed.

Lemma loop_events_step (inputs : nat -> tick) (i count : nat) :
  loop_events inputs i (S count) = tick_events (inputs i) ++ loop_events inputs (S i) count.
Proof. reflexivity. Qed.

Lemma loop_events_reads (inputs : nat -> tick) (count : nat) :
  forall i, length (filter (fun e => e = CamRead) (loop_events inputs i count)) = count.
Proof.
  induction count as [|count IH]; intros i; [reflexivity|].
  rewrite loop_events_step, filter_app, length_app, tick_events_reads, IH. reflexivity.
Qed.

Lemma loop_events_local (inputs : nat -> tick) (count : nat) :
  forall i, Forall (fun e => is_network e = false) (loop_events inputs i count).
Proof.
  induction count as [|count IH]; intros i; [constructor|].
  rewrite loop_events_step. apply Forall_app. split; [apply tick_events_local | apply IH].
Qed.

Lemma loop_events_no_write (inputs : nat -> tick) (count : nat) :
  forall i,
    (forall j, (i <= j < i + count)%nat -> stops (inputs j) = false) ->
    ImWrite capture_file ∉ loop_events inputs i count.
Proof.
  induction count as [|count IH]; intros i Hrun Hin.
  - now apply elem_of_nil in Hin.
  - rewrite loop_events_step in Hin. apply elem_of_app in Hin as [Hin|Hin].
    + apply tick_events_write, saves_stops in Hin. rewrite Hrun in Hin by lia. discriminate.
    + apply (IH (S i)); [|exact Hin]. intros j Hj. apply Hrun. lia.
Qed.

(** *** [read_bar] *)

Lemma read_bar_run (filename : string) (w : world) :
  exists drawn : list event,
    read_bar image decode filename w
    = (read_bar_result image decode (files w !! filename),
       mkWorld (files w) (stdout w) (log w ++ ImRead filename :: drawn))
    /\ Forall (fun e => device_of e = Memory) drawn.
Proof.
  unfold read_bar, read_bar_result; simpl.
  destruct (files w !! filename) as [img|]; [|exists []; split; [reflexivity | constructor]].
  destruct (decode img) as [|b rest]; [exists []; split; [reflexivity | constructor]|].
  destruct (rect b) as [[[x y] wd] h]; simpl.
  exists [Rectangle (x - 10, y - 10) (x + wd + 10, y + h + 10)].
  split; [|repeat constructor].
  unfold emit; simpl. now rewrite <- app_assoc.
Qed.

(** C5.  When the decoding library detects no barcode in the image read
    from [filename] ([decode] gives the empty list), [read_bar] returns the
    plain string "Barcode Not Detected or your barcode is blank/corrupted!". *)
Theorem read_bar_no_barcode (filename : string) (w : world) (img : image) :
  files w !! filename = Some img ->
  decode img = [] ->
  fst (read_bar image decode filename w)
  = inr "Barcode Not Detected or your barcode is blank/corrupted!".
Proof.
  intros Hfile Hnone.
  destruct (read_bar_run filename w) as (drawn & -> & _); simpl.
  rewrite Hfile; simpl. rewrite Hnone. reflexivity.
Qed.

(** C10.  When the decoding library detects at least one barcode,
    [read_bar] returns the string made of the characters [chr(i)] of the
    bytes of the first barcode, whatever the other barcodes are, and
    draws one rectangle only, around the first. *)
Theorem read_bar_first_barcode (filename : string) (w : world) (img : image)
    (first : Decoded) (others : list Decoded) :
  files w !! filename = Some img ->
  decode img = first :: others ->
  fst (read_bar image decode filename w)
  = inr (string_of_list_ascii (map ascii_of_byte (data first)))
  /\ log (snd (read_bar image decode filename w))
     = log w ++ [ImRead filename;
                 Rectangle ((rect first).1.1.1 - 10, (rect first).1.1.2 - 10)
                           ((rect first).1.1.1 + (rect first).1.2 + 10,
                            (rect first).1.1.2 + (rect first).2 + 10)].
Proof.
  intros Hfile Hsome. unfold read_bar; simpl.
  rewrite Hfile, Hsome.
  destruct (rect first) as [[[x y] wd] h]; simpl.
  rewrite decode_chars_map, <- app_assoc. split; reflexivity.
Qed.

(** C7.  One iteration of the capture loop leaves the loop exactly when the
    frame capture failed or the key pressed, modulo 256, is 27, 13 or 32;
    with any other key it continues.  A failed capture prints
    "Failed to capture".  Hence the loop, which runs its iterations one
    after the other, ends in the first iteration that meets this condition
    and not before, and runs for ever when none does. *)
Theorem capture_loop_exit_condition :
  (forall (t : tick) (w : world),
      fst (loop_body image jpeg t w) = Break <->
      ret t = false \/ key t mod 256 = 27 \/ key t mod 256 = 13 \/ key t mod 256 = 32)
  /\ (forall (t : tick) (w : world),
        fst (loop_body image jpeg t w) = Continue <->
        ret t = true /\ key t mod 256 <> 27 /\ key t mod 256 <> 13 /\ key t mod 256 <> 32)
  /\ (forall (t : tick) (w : world),
        ret t = false ->
        stdout (snd (loop_body image jpeg t w)) = stdout w ++ ["Failed to capture"])
  /\ (forall (inputs : nat -> tick) (n : nat) (w : world),
        stops (inputs n) = true ->
        (forall j, (j < n)%nat -> stops (inputs j) = false) ->
        forall fuel, is_Some (capture_loop image jpeg inputs fuel 0 w) <-> (n < fuel)%nat)
  /\ (forall (inputs : nat -> tick) (w : world),
        (forall j, stops (inputs j) = false) ->
        forall fuel, capture_loop image jpeg inputs fuel 0 w = None).
Proof.
  repeat apply conj.
  - intros t w. rewrite loop_body_ctrl, <- stops_iff.
    destruct (stops t); split; congruence.
  - intros t w. rewrite loop_body_ctrl.
    pose proof (stops_iff t) as Hs. destruct (stops t).
    + split; [discriminate|]. intros (Hr & H27 & H13 & H32).
      destruct Hs as [Hs _]. destruct (Hs eq_refl) as [?|[?|[?|?]]]; congruence.
    + split; [intros _|reflexivity].
      destruct (ret t) eqn:Hr.
      * repeat split; intros Hk; destruct Hs as [_ Hs]; discriminate Hs; tauto.
      * destruct Hs as [_ Hs]. discriminate Hs. tauto.
  - intros t w Hr. rewrite loop_body_stdout, Hr. reflexivity.
  - intros inputs n w Hstop Hbefore fuel. split.
    + intros Hsome. destruct (Nat.lt_ge_cases n fuel) as [|Hle]; [assumption|].
      rewrite capture_loop_running in Hsome; [now apply is_Some_None in Hsome|].
      intros j Hj. apply Hbefore. lia.
    + intros Hlt. apply (capture_loop_total inputs n); [lia | exact Hstop].
  - intros inputs w Hrun fuel. apply capture_loop_running. intros j _. apply Hrun.
Qed.

(** C6, as the code has it.  [decode_barcode] returns once some iteration
    meets the exit condition.  Whenever it returns, it has read one camera
    frame per iteration; it has written the last frame to "barcode__.jpg"
    exactly when the loop ended with Enter or Space, and has written
    nothing when it ended with ESC or a failed capture; in every case it
    then passes "barcode__.jpg" to [read_bar] and returns its result; and
    none of its calls goes to the network. *)
Theorem decode_barcode_io (inputs : nat -> tick) (w : world) :
  (forall n, stops (inputs n) = true ->
     is_Some (decode_barcode image decode jpeg inputs (S n) w))
  /\ (forall (fuel : nat) (r : res string) (w' : world),
        decode_barcode image decode jpeg inputs fuel w = Some (r, w') ->
        exists (n : nat) (evs : list event),
          (n < fuel)%nat
          /\ stops (inputs n) = true
          /\ (forall j, (j < n)%nat -> stops (inputs j) = false)
          /\ log w' = log w ++ evs
          /\ length (filter (fun e => e = CamRead) evs) = S n
          /\ (ImWrite capture_file ∈ evs <-> saves (inputs n) = true)
          /\ files w' = (if saves (inputs n)
                         then <[capture_file := jpeg (frame (inputs n))]> (files w)
                         else files w)
          /\ ImRead capture_file ∈ evs
          /\ r = read_bar_result image decode (files w' !! capture_file)
          /\ Forall (fun e => is_network e = false) evs).
Proof.
  split.
  - intros n Hstop. unfold decode_barcode.
    destruct (capture_loop_total inputs n (S n) 0 (emit (VideoCapture 0) w)) as [w1 ->];
      [lia | exact Hstop | eauto].
  - intros fuel r w' Hrun. unfold decode_barcode in Hrun.
    destruct (capture_loop image jpeg inputs fuel 0 (emit (VideoCapture 0) w))
      as [w1|] eqn:Hloop; [|discriminate].
    apply capture_loop_exit in Hloop as (n & Hn & Hstop & Hbefore & Hw1).
    replace (n - 0)%nat with n in Hw1 by lia.
    destruct (read_bar_run capture_file w1) as (drawn & Hread & Hdrawn).
    rewrite Hread in Hrun. injection Hrun as <- <-.
    assert (files w1 = if saves (inputs n)
                       then <[capture_file := jpeg (frame (inputs n))]> (files w)
                       else files w) as Hfiles
      by (rewrite Hw1, loop_body_files; reflexivity).
    assert (log w1 = (log w ++ [VideoCapture 0]) ++ loop_events inputs 0 n
                     ++ tick_events (inputs n)) as Hlog
      by (rewrite Hw1, loop_body_log; simpl; now rewrite <- app_assoc).
    exists n,
      ([VideoCapture 0] ++ loop_events inputs 0 n ++ tick_events (inputs n)
       ++ ImRead capture_file :: drawn).
    simpl files; simpl log.
    repeat match goal with |- _ /\ _ => split end.
    + lia.
    + exact Hstop.
    + intros j Hj. apply Hbefore. lia.
    + rewrite Hlog. now rewrite <- !app_assoc.
    + rewrite !filter_app, !length_app, loop_events_reads, tick_events_reads.
      assert (length (filter (fun e => e = CamRead) (ImRead capture_file :: drawn)) = O)
        as ->.
      { rewrite filter_cons_False by discriminate.
        clear -Hdrawn. induction Hdrawn as [|e l He _ IH]; [reflexivity|].
        rewrite filter_cons_False; [exact IH | intros ->; discriminate]. }
      simpl. lia.
    + rewrite !elem_of_app. split.
      * intros [Hin|[Hin|[Hin|Hin]]].
        -- apply list_elem_of_singleton in Hin. discriminate.
        -- exfalso. apply (loop_events_no_write inputs n 0); [|exact Hin].
           intros j Hj. apply Hbefore. lia.
        -- now apply tick_events_write.
        -- exfalso. apply elem_of_cons in Hin as [Hin|Hin]; [discriminate|].
           rewrite Forall_forall in Hdrawn. apply Hdrawn in Hin. discriminate.
      * intros Hs. right. right. left. now apply tick_events_write.
    + exact Hfiles.
    + rewrite !elem_of_app. do 3 right. apply list_elem_of_here.
    + reflexivity.
    + apply Forall_app; split; [repeat constructor|].
      apply Forall_app; split; [apply loop_events_local|].
      apply Forall_app; split; [apply tick_events_local|].
      constructor; [reflexivity|].
      eapply Forall_impl; [exact Hdrawn|]. intros e He.
      unfold is_network. now rewrite He.
Qed.

End ScannerProperties.

(** C5 at a concrete image: a file whose decoding gives no barcode. *)
Lemma read_bar_no_barcode_witness :
  fst (Scanner.read_bar nat (fun _ => []) "barcode__.jpg"
         (Scanner.mkWorld {["barcode__.jpg" := 7%nat]} [] []))
  = inr "Barcode Not Detected or your barcode is blank/corrupted!".
Proof.
  apply (read_bar_no_barcode nat (fun _ => []) "barcode__.jpg" _ 7%nat).
  - vm_compute. reflexivity.
  - reflexivity.
Defined.

(** C10 at a concrete image with two barcodes: the result spells the first. *)
Lemma read_bar_first_barcode_witness :
  fst (Scanner.read_bar nat
         (fun _ => [Scanner.mkDecoded [x41; x42]%byte (5, 6, 30, 20);
                    Scanner.mkDecoded [x5a]%byte (0, 0, 1, 1)])
         "barcode__.jpg" (Scanner.mkWorld {["barcode__.jpg" := 7%nat]} [] []))
  = inr "AB".
Proof.
  apply (read_bar_first_barcode nat _ "barcode__.jpg" _ 7%nat
           (Scanner.mkDecoded [x41; x42]%byte (5, 6, 30, 20))
           [Scanner.mkDecoded [x5a]%byte (0, 0, 1, 1)]).
  - vm_compute. reflexivity.
  - reflexivity.
Defined.

(** C6 as stated fails: when the first key is ESC, [decode_barcode] returns
    without having written any file ("barcode__.jpg" does not exist
    afterwards and no write was made), and [read_bar] is called on the
    missing file. *)
Lemma decode_barcode_escape_writes_nothing :
  exists (r : res string) (w' : Scanner.world nat),
    Scanner.decode_barcode nat (fun _ => []) id
      (fun _ => Scanner.mkTick true 7%nat 27) 1 (Scanner.mkWorld ∅ [] [])
    = Some (r, w')
    /\ (Scanner.files w' !! "barcode__.jpg" = None)
    /\ (Scanner.ImWrite "barcode__.jpg" ∉ Scanner.log w')
    /\ r = inl TypeError.
Proof.
  eexists _, _. split; [reflexivity|]. split; [reflexivity|]. split; [|reflexivity].
  simpl. intros Hin.
  repeat (apply elem_of_cons in Hin as [Hin|Hin]; [discriminate|]).
  now apply elem_of_nil in Hin.
Qed.

(** * Properties of the backend *)

(** ** Tables *)

Section TableProperties.
Import Django.
Context {R K : Type} `{EqDecision K} (pk : R -> K).

Lemma has_pk_spec (k : K) (rows : list R) :
  has_pk pk k rows = true <-> k ∈ pk <$> rows.
Proof. unfold has_pk. apply bool_decide_eq_true. Qed.

Lemma has_pk_false (k : K) (rows : list R) :
  has_pk pk k rows = false <-> k ∉ pk <$> rows.
Proof. unfold has_pk. apply bool_decide_eq_false. Qed.

Lemma insert_row_keys (model : string) (r : R) (rows rows' : list R) :
  insert_row pk model r rows = inr rows' ->
  rows' = rows ++ [r] /\ pk r ∉ pk <$> rows.
Proof.
  unfold insert_row. destruct (has_pk pk (pk r) rows) eqn:E; [discriminate|].
  intros [= <-]. split; [reflexivity | now apply has_pk_false].
Qed.

Lemma NoDup_snoc_key (r : R) (rows : list R) :
  NoDup (pk <$> rows) -> pk r ∉ pk <$> rows -> NoDup (pk <$> rows ++ [r]).
Proof.
  intros Hnd Hnew. rewrite fmap_app. apply NoDup_app. repeat split.
  - exact Hnd.
  - intros k Hk Hin. apply list_elem_of_singleton in Hin. congruence.
  - apply NoDup_singleton.
Qed.

Lemma save_row_keys (r : R) (rows : list R) :
  pk <$> save_row pk r rows
  = if has_pk pk (pk r) rows then pk <$> rows else (pk <$> rows) ++ [pk r].
Proof.
  unfold save_row. destruct (has_pk pk (pk r) rows); [|now rewrite fmap_app].
  induction rows as [|a rows IH]; [reflexivity|]. rewrite !fmap_cons, IH.
  destruct (decide (pk a = pk r)) as [->|]; reflexivity.
Qed.

Lemma NoDup_save_row (r : R) (rows : list R) :
  NoDup (pk <$> rows) -> NoDup (pk <$> save_row pk r rows).
Proof.
  intros Hnd. rewrite save_row_keys.
  destruct (has_pk pk (pk r) rows) eqn:E; [exact Hnd|].
  change [pk r] with (pk <$> [r]). rewrite <- fmap_app.
  apply NoDup_snoc_key; [exact Hnd|]. now apply has_pk_false.
Qed.

Lemma save_row_keeps_keys (r : R) (rows : list R) (k : K) :
  k ∈ pk <$> rows -> k ∈ pk <$> save_row pk r rows.
Proof.
  rewrite save_row_keys. destruct (has_pk pk (pk r) rows); [tauto|].
  intros Hk. apply elem_of_app. now left.
Qed.

Lemma save_row_elem (r a : R) (rows : list R) :
  a ∈ save_row pk r rows -> a = r \/ a ∈ rows.
Proof.
  unfold save_row. destruct (has_pk pk (pk r) rows).
  - intros Hin. apply list_elem_of_fmap in Hin as (b & -> & Hb).
    destruct (decide (pk b = pk r)); [now left | now right].
  - intros Hin. apply elem_of_app in Hin as [Hin|Hin]; [now right|].
    apply list_elem_of_singleton in Hin. now left.
Qed.

Lemma NoDup_delete_row (k : K) (rows : list R) :
  NoDup (pk <$> rows) -> NoDup (pk <$> delete_row pk k rows).
Proof.
  intros Hnd. apply (sublist_NoDup _ _ Hnd).
  apply fmap_sublist. apply sublist_filter.
Qed.

Lemma NoDup_filter_rows (P : R -> Prop) `{forall r, Decision (P r)} (rows : list R) :
  NoDup (pk <$> rows) -> NoDup (pk <$> filter P rows).
Proof.
  intros Hnd. apply (sublist_NoDup _ _ Hnd).
  apply fmap_sublist. apply sublist_filter.
Qed.

Lemma delete_row_elem (k : K) (a : R) (rows : list R) :
  a ∈ delete_row pk k rows <-> pk a <> k /\ a ∈ rows.
Proof. unfold delete_row. now rewrite list_elem_of_filter. Qed.

Lemma delete_row_gone (k : K) (rows : list R) : k ∉ pk <$> delete_row pk k rows.
Proof.
  intros Hin. apply list_elem_of_fmap in Hin as (a & -> & Ha).
  apply delete_row_elem in Ha as [Hne _]. now apply Hne.
Qed.

(** With unique keys, the key identifies the row. *)
Lemma NoDup_identifies (rows : list R) : NoDup (pk <$> rows) -> identifies pk rows.
Proof.
  induction rows as [|r rows IH]; intros Hnd a b Ha Hb Hk.
  - now apply elem_of_nil in Ha.
  - rewrite fmap_cons in Hnd. apply NoDup_cons in Hnd as [Hr Hnd].
    apply elem_of_cons in Ha as [->|Ha]; apply elem_of_cons in Hb as [->|Hb].
    + reflexivity.
    + exfalso. apply Hr. rewrite Hk. apply list_elem_of_fmap. eauto.
    + exfalso. apply Hr. rewrite <- Hk. apply list_elem_of_fmap. eauto.
    + now apply IH.
Qed.

(** With unique keys, at most one row has a given key. *)
Lemma NoDup_at_most_one (k : K) (rows : list R) :
  NoDup (pk <$> rows) -> (length (filter (fun r => pk r = k) rows) <= 1)%nat.
Proof.
  induction rows as [|r rows IH]; intros Hnd; [simpl; lia|].
  rewrite fmap_cons in Hnd. apply NoDup_cons in Hnd as [Hr Hnd].
  destruct (decide (pk r = k)) as [Hk|Hk].
  - rewrite filter_cons_True by exact Hk.
    assert (filter (fun r => pk r = k) rows = []) as ->; [|simpl; lia].
    destruct (filter (fun r => pk r = k) rows) as [|a l] eqn:E; [reflexivity|].
    exfalso. assert (a ∈ filter (fun r => pk r = k) rows) as Ha
      by (rewrite E; apply list_elem_of_here).
    apply list_elem_of_filter in Ha as [Hak Ha]. apply Hr.
    rewrite Hk, <- Hak. apply list_elem_of_fmap. eauto.
  - rewrite filter_cons_False by exact Hk. now apply IH.
Qed.

End TableProperties.

(** ** The invariant is kept by every model operation *)

Section Invariant.
Import Django.

Create HintDb orm.

Ltac open_consistent :=
  intros d (Hstudents & Husers & Hschedules & Hstatuses & Huseq & Hsseq & Hfk);
  unfold consistent.

Lemma consistent_empty : consistent empty_db.
Proof.
  unfold consistent, empty_db; simpl.
  repeat split; try apply NoDup_nil_2; intros x Hx; now apply elem_of_nil in Hx.
Qed.

Lemma preserves_mret {A} (a : A) : preserves (mret a).
Proof. intros d Hd. exact Hd. Qed.

Lemma preserves_raise {A} (e : exn) : preserves (@raise A e).
Proof. intros d Hd. exact Hd. Qed.

Lemma preserves_lift {A} (r : res A) : preserves (lift r).
Proof. intros d Hd. exact Hd. Qed.

Lemma preserves_gets {A} (f : db -> A) : preserves (gets f).
Proof. intros d Hd. exact Hd. Qed.

Lemma preserves_respond (data : pyval) (safe : bool) (status : Z) :
  preserves (respond data safe status).
Proof. apply preserves_lift. Qed.

Lemma preserves_bind {A B} (c : M A) (k : A -> M B) :
  preserves c -> (forall a, preserves (k a)) -> preserves (c ≫= k).
Proof.
  intros Hc Hk d Hd. unfold mbind, M_bind, bind.
  specialize (Hc d Hd). destruct (c d) as [[e|a] d']; simpl in *; [exact Hc|].
  now apply Hk.
Qed.

Lemma preserves_get_from `{Framework} {R} `{Model R} (table : db -> list R)
    (kwargs : list (string * pyval)) :
  preserves (get_from table kwargs).
Proof. intros d Hd. exact Hd. Qed.

Lemma preserves_Student_create (s : Student.t) : preserves (Student_create s).
Proof.
  open_consistent. unfold Student_create.
  destruct (insert_row _ _ _ _) as [e|rows] eqn:E; simpl; [tauto|].
  apply insert_row_keys in E as [-> Hnew].
  repeat split; try assumption.
  - now apply NoDup_snoc_key.
  - intros m Hm. rewrite fmap_app. apply elem_of_app. left. now apply Hfk.
Qed.

Lemma preserves_Student_save (s : Student.t) : preserves (Student_save s).
Proof.
  open_consistent. simpl. repeat split; try assumption.
  - now apply NoDup_save_row.
  - intros m Hm. apply save_row_keeps_keys. now apply Hfk.
Qed.

Lemma preserves_Student_delete (s : Student.t) : preserves (Student_delete s).
Proof.
  open_consistent. simpl. repeat split; try assumption.
  - now apply NoDup_delete_row.
  - now apply NoDup_filter_rows.
  - intros m Hm. apply list_elem_of_filter in Hm as [Hne Hm].
    apply Hfk in Hm. apply list_elem_of_fmap in Hm as (a & Hk & Ha).
    apply list_elem_of_fmap. exists a. split; [exact Hk|].
    apply delete_row_elem. split; [congruence | exact Ha].
Qed.

Lemma fresh_key {R} (pk : R -> Z) (rows : list R) (seq : Z) :
  (forall r, r ∈ rows -> pk r <= seq) -> seq + 1 ∉ pk <$> rows.
Proof.
  intros Hbound Hin. apply list_elem_of_fmap in Hin as (r & Hk & Hr).
  apply Hbound in Hr. lia.
Qed.

Lemma preserves_User_create (v : User.data) : preserves (User_create v).
Proof.
  open_consistent. simpl. repeat split; try assumption.
  - apply NoDup_snoc_key; [assumption | now apply fresh_key].
  - intros u Hu. apply elem_of_app in Hu as [Hu|Hu].
    + apply Huseq in Hu. lia.
    + apply list_elem_of_singleton in Hu. subst u. simpl. lia.
Qed.

Lemma preserves_User_save (u : User.t) : preserves (User_save u).
Proof.
  open_consistent. simpl. repeat split; try assumption.
  - now apply NoDup_save_row.
  - intros a Ha. apply save_row_elem in Ha as [->|Ha]; [lia|].
    apply Huseq in Ha. lia.
Qed.

Lemma preserves_User_delete (u : User.t) : preserves (User_delete u).
Proof.
  open_consistent. simpl. repeat split; try assumption.
  - now apply NoDup_delete_row.
  - intros a Ha. apply delete_row_elem in Ha as [_ Ha]. now apply Huseq.
Qed.

Lemma preserves_Schedule_create (v : Schedule.data) : preserves (Schedule_create v).
Proof.
  open_consistent. simpl. repeat split; try assumption.
  - apply NoDup_snoc_key; [assumption | now apply fresh_key].
  - intros s Hs. apply elem_of_app in Hs as [Hs|Hs].
    + apply Hsseq in Hs. lia.
    + apply list_elem_of_singleton in Hs. subst s. simpl. lia.
Qed.

Lemma preserves_Schedule_save (s : Schedule.t) : preserves (Schedule_save s).
Proof.
  open_consistent. simpl. repeat split; try assumption.
  - now apply NoDup_save_row.
  - intros a Ha. apply save_row_elem in Ha as [->|Ha]; [lia|].
    apply Hsseq in Ha. lia.
Qed.

Lemma preserves_Schedule_delete (s : Schedule.t) : preserves (Schedule_delete s).
Proof.
  open_consistent. simpl. repeat split; try assumption.
  - now apply NoDup_delete_row.
  - intros a Ha. apply delete_row_elem in Ha as [_ Ha]. now apply Hsseq.
Qed.

Lemma preserves_MealStatus_create (m : MealStatus.t) : preserves (MealStatus_create m).
Proof.
  open_consistent. unfold MealStatus_create, references_student.
  destruct (has_pk Student.student_id _ _) eqn:Eref; simpl; [|tauto].
  apply has_pk_spec in Eref.
  destruct (insert_row _ _ _ _) as [e|rows] eqn:E; simpl; [tauto|].
  apply insert_row_keys in E as [-> Hnew].
  repeat split; try assumption.
  - now apply NoDup_snoc_key.
  - intros a Ha. apply elem_of_app in Ha as [Ha|Ha]; [now apply Hfk|].
    apply list_elem_of_singleton in Ha. now subst a.
Qed.

Lemma preserves_MealStatus_save (m : MealStatus.t) : preserves (MealStatus_save m).
Proof.
  open_consistent. unfold MealStatus_save, references_student.
  destruct (has_pk Student.student_id _ _) eqn:Eref; simpl; [|tauto].
  apply has_pk_spec in Eref.
  repeat split; try assumption.
  - now apply NoDup_save_row.
  - intros a Ha. apply save_row_elem in Ha as [->|Ha]; [exact Eref | now apply Hfk].
Qed.

Lemma preserves_MealStatus_delete (m : MealStatus.t) : preserves (MealStatus_delete m).
Proof.
  open_consistent. simpl. repeat split; try assumption.
  - now apply NoDup_delete_row.
  - intros a Ha. apply delete_row_elem in Ha as [_ Ha]. now apply Hfk.
Qed.

#[local] Hint Resolve preserves_mret preserves_raise preserves_lift preserves_gets
  preserves_respond preserves_Student_create preserves_Student_save
  preserves_Student_delete preserves_User_create preserves_User_save
  preserves_User_delete preserves_Schedule_create preserves_Schedule_save
  preserves_Schedule_delete preserves_MealStatus_create preserves_MealStatus_save
  preserves_MealStatus_delete : orm.

(** Walks through a view: every step is a bind, a branch or one of the
    operations above. *)
Ltac walk :=
  repeat first
    [ apply preserves_bind; [|intros ?]
    | apply preserves_get_from
    | match goal with
      | |- preserves (if ?b then _ else _) => destruct b
      | |- preserves (match ?x with _ => _ end) => destruct x
      end
    | solve [auto with orm] ].

Context {F : Framework}.

Lemma preserves_run_op (o : op) : preserves (run_op o).
Proof. destruct o; simpl; walk. Qed.

Lemma preserves_studentApi (request : request) (id : pyval) :
  preserves (studentApi request id).
Proof. unfold studentApi, not_None. walk. Qed.

Lemma preserves_userApi (request : request) (id : pyval) :
  preserves (userApi request id).
Proof. unfold userApi, not_None. walk. Qed.

Lemma preserves_scheduleApi (request : request) (id : pyval) :
  preserves (scheduleApi request id).
Proof. unfold scheduleApi, not_None. walk. Qed.

Lemma preserves_mealStatusApi (request : request) (id : pyval) :
  preserves (mealStatusApi request id).
Proof. unfold mealStatusApi, not_None. walk. Qed.

Lemma resolve_listed (m : matching) (patterns : list (list atom * view)) (path : string)
    (v : view) (args : list string) :
  resolve m patterns path = Some (v, args) -> exists p, (p, v) ∈ patterns.
Proof.
  induction patterns as [|[p v'] rest IH]; simpl; [discriminate|].
  destruct (find_match m p path) as [g|].
  - intros [= <- <-]. exists p. apply list_elem_of_here.
  - intros Hr. destruct (IH Hr) as [q Hq]. exists q. now apply list_elem_of_further.
Qed.

Lemma preserves_views :
  Forall (fun pv => forall request id, preserves (view_fn (snd pv) request id)) urlpatterns.
Proof.
  unfold urlpatterns.
  repeat (apply List.Forall_cons;
          [ simpl; intros request id;
            first [ apply preserves_studentApi | apply preserves_userApi
                  | apply preserves_scheduleApi | apply preserves_mealStatusApi ] |]).
  apply List.Forall_nil.
Qed.

Lemma preserves_dispatch (path : string) (request : request) :
  preserves (dispatch path request).
Proof.
  unfold dispatch. destruct (resolve url_matching urlpatterns path) as [[v args]|] eqn:E;
    [|apply preserves_raise].
  apply resolve_listed in E as [p Hp].
  pose proof preserves_views as Hall. rewrite Forall_forall in Hall.
  specialize (Hall _ Hp). simpl in Hall.
  unfold call_view. destruct args as [|a [|b args]]; auto using preserves_raise.
Qed.

(** Every reachable state satisfies the invariant. *)
Lemma reachable_consistent (d : db) : reachable F d -> consistent d.
Proof.
  induction 1 as [|d o _ IH|d path request _ IH].
  - apply consistent_empty.
  - now apply preserves_run_op.
  - now apply preserves_dispatch.
Qed.

End Invariant.

(** ** The data model *)

Section DataModel.
Import Django.


(** C9.  In every reachable state each student has at most one
    [MealStatus] row and every [MealStatus] row references a stored
    student; deleting a student succeeds and leaves neither the student
    nor a [MealStatus] row that references it. *)
Theorem meal_status_unique_and_cascade (F : Framework) (d : db) :
  reachable F d ->
  (forall s, s ∈ students d ->
     (length (filter (fun m => MealStatus.student_id m = Student.student_id s) (statuses d))
      <= 1)%nat)
  /\ (forall m, m ∈ statuses d ->
        exists s, s ∈ students d /\ Student.student_id s = MealStatus.student_id m)
  /\ (forall s,
        fst (Student_delete s d) = inr tt
        /\ (forall m, m ∈ statuses (snd (Student_delete s d)) ->
              MealStatus.student_id m <> Student.student_id s)
        /\ (forall s', s' ∈ students (snd (Student_delete s d)) ->
              Student.student_id s' <> Student.student_id s)).
Proof.
  intros Hreach. apply reachable_consistent in Hreach.
  destruct Hreach as (_ & _ & _ & Hstatuses & _ & _ & Hfk).
  split; [|split].
  - intros s _. now apply NoDup_at_most_one.
  - intros m Hm. apply Hfk in Hm. apply list_elem_of_fmap in Hm as (s & Hk & Hs).
    exists s. split; [exact Hs | congruence].
  - intros s. split; [reflexivity|]. simpl. split.
    + intros m Hm. apply list_elem_of_filter in Hm as [Hne _]. exact Hne.
    + intros s' Hs'. apply delete_row_elem in Hs' as [Hne _]. exact Hne.
Qed.

End DataModel.



(** C9 on the same database: deleting the student empties both tables. *)
Lemma meal_status_unique_and_cascade_witness :
  Django.reachable Django.simple Django.example_db
  /\ Django.statuses (snd (Django.Student_delete Django.example_student Django.example_db)) = []
  /\ (forall m, m ∈ Django.statuses Django.example_db ->
        exists s, s ∈ Django.students Django.example_db
                  /\ Django.Student.student_id s = Django.MealStatus.student_id m).
Proof.
  assert (Django.reachable Django.simple Django.example_db) as Hreach
    by (unfold Django.example_db; apply Django.reach_op, Django.reach_op, Django.reach_empty).
  split; [exact Hreach|]. split; [vm_compute; reflexivity|].
  apply (meal_status_unique_and_cascade Django.simple Django.example_db Hreach).
Defined.

(** ** URL resolution *)

Section Urls.
Import Django.

Lemma match_here_lit (final : string -> bool) (text : string) (p : list atom) (s : string) :
  match_here final (Lit text :: p) s
  = match strip_prefix text s with Some s' => match_here final p s' | None => None end.
Proof. reflexivity. Qed.

Lemma match_here_dollar (final : string -> bool) (p : list atom) (s : string) :
  match_here final (Dollar :: p) s = if at_end s then match_here final p s else None.
Proof. reflexivity. Qed.

Lemma search_cons (p : list atom) (c : ascii) (s : string) :
  search p (String c s)
  = match match_here anywhere p (String c s) with
    | Some g => Some g
    | None => search p s
    end.
Proof. reflexivity. Qed.

(** A pattern without groups captures nothing. *)
Lemma match_here_captures (final : string -> bool) (p : list atom) :
  captures p = O -> forall s g, match_here final p s = Some g -> g = [].
Proof.
  induction p as [|a p IH]; intros Hc s g;
    [simpl; destruct (final s); [now intros [= <-] | discriminate]|].
  destruct a as [text|cls|cls|]; try discriminate Hc;
    specialize (IH Hc).
  - rewrite match_here_lit. destruct (strip_prefix text s); [apply IH | discriminate].
  - revert g. induction s as [|c s IHs]; intros g; simpl; [discriminate|].
    destruct (cls c); [|discriminate].
    simpl in IHs. destruct ((fix plus (s0 : string) : option (list string) := _) s) eqn:E.
    + intros [= <-]. now apply IHs.
    + apply IH.
  - simpl. destruct (at_end s); [apply IH | discriminate].
Qed.

Lemma search_captures (p : list atom) :
  captures p = O -> forall s g, search p s = Some g -> g = [].
Proof.
  intros Hc s. induction s as [|c s IH]; intros g; simpl;
    destruct (match_here anywhere p _) eqn:E.
  - intros [= <-]. eapply match_here_captures; eauto.
  - discriminate.
  - intros [= <-]. eapply match_here_captures; eauto.
  - apply IH.
Qed.

Lemma find_match_captures (m : matching) (p : list atom) :
  captures p = O -> forall s g, find_match m p s = Some g -> g = [].
Proof.
  intros Hc s g. destruct m; simpl.
  - now apply search_captures.
  - now apply match_here_captures.
Qed.

Lemma resolve_captures (m : matching) (patterns : list (list atom * view)) :
  Forall (fun pv => captures (fst pv) = O) patterns ->
  forall path v args, resolve m patterns path = Some (v, args) -> args = [].
Proof.
  induction 1 as [|[p v'] rest Hp _ IH]; intros path v args; simpl; [discriminate|].
  destruct (find_match m p path) as [g|] eqn:E; [|apply IH].
  intros [= <- <-]. eapply find_match_captures; eauto.
Qed.

Lemma urlpatterns_capture_free `{Framework} :
  Forall (fun pv => captures (fst pv) = O) urlpatterns.
Proof. unfold urlpatterns. repeat (apply List.Forall_cons; [reflexivity|]). apply List.Forall_nil. Qed.

(** *** Paths made of a resource and an alphanumeric segment *)

Lemma strip_prefix_alnum (text s r : string) :
  strip_prefix text s = Some r -> all_alnum s = true -> all_alnum text = true.
Proof.
  revert s. induction text as [|a text IH]; intros s; [reflexivity|].
  destruct s as [|b s]; simpl; [discriminate|].
  destruct (Ascii.eqb_spec a b) as [->|]; [|discriminate].
  intros Hs Hb. apply andb_true_iff in Hb as [Hb Hrest].
  rewrite Hb. simpl. eapply IH; eauto.
Qed.

Lemma search_alnum_none (text : string) (p : list atom) (s : string) :
  all_alnum text = false -> all_alnum s = true -> search (Lit text :: p) s = None.
Proof.
  intros Htext. induction s as [|c s IH]; intros Hs.
  - simpl. destruct (strip_prefix text "") eqn:E; [|reflexivity].
    apply strip_prefix_alnum in E; [congruence | reflexivity].
  - rewrite search_cons, match_here_lit.
    destruct (strip_prefix text (String c s)) eqn:E.
    + apply strip_prefix_alnum in E; [congruence | exact Hs].
    + apply IH. simpl in Hs. now apply andb_true_iff in Hs as [_ Hs].
Qed.

Lemma mismatch_strip (text s n : string) :
  mismatch text s = true -> strip_prefix text (s +:+ n) = None.
Proof.
  revert s. induction text as [|a text IH]; intros s; [discriminate|].
  destruct s as [|b s]; simpl; [discriminate|].
  destruct (Ascii.eqb a b); [apply IH | reflexivity].
Qed.

Lemma search_clash_none (text : string) (p : list atom) (s n : string) :
  clash text s = true -> all_alnum text = false -> all_alnum n = true ->
  search (Lit text :: p) (s +:+ n) = None.
Proof.
  intros Hclash Htext Hn. induction s as [|c s IH].
  - now apply search_alnum_none.
  - simpl in Hclash. apply andb_true_iff in Hclash as [Hm Hclash].
    change (String c s +:+ n) with (String c (s +:+ n)).
    rewrite search_cons, match_here_lit.
    change (String c (s +:+ n)) with (String c s +:+ n).
    rewrite (mismatch_strip _ _ _ Hm). now apply IH.
Qed.

Lemma at_end_alnum (n : string) : n <> "" -> all_alnum n = true -> at_end n = false.
Proof.
  destruct n as [|c [|c' n]]; [congruence | | reflexivity].
  intros _ Hc. simpl in *. rewrite andb_true_r in Hc.
  destruct (Ascii.eqb_spec c "010") as [->|]; [discriminate | reflexivity].
Qed.

Lemma plus_alnum_matches (final : string -> bool) (n : string) :
  final "" = true ->
  n <> "" -> all_alnum n = true -> match_here final [Plus alnum; Dollar] n = Some [].
Proof.
  intros Hfinal. induction n as [|c n IH]; [congruence|]. intros _ Hn.
  simpl in Hn. apply andb_true_iff in Hn as [Hc Hn].
  simpl. rewrite Hc. destruct n as [|c' n]; [simpl; now rewrite Hfinal|].
  simpl in IH. rewrite IH; [reflexivity | discriminate | exact Hn].
Qed.

(** Under [re.fullmatch] a literal that differs from the path at a
    position both have does not match. *)
Lemma fullmatch_mismatch (text : string) (p : list atom) (s n : string) :
  mismatch text s = true -> fullmatch (Lit text :: p) (s +:+ n) = None.
Proof.
  intros Hm. unfold fullmatch. rewrite match_here_lit.
  now rewrite (mismatch_strip _ _ _ Hm).
Qed.

End Urls.

(** ** The views *)

Section ViewProperties.
Import Django.
Context {F : Framework}.

Ltac run_view :=
  unfold run, mbind, M_bind, bind, lift, gets, get_from, respond, raise, parse, not_None;
  simpl.

(** [get] on [Student] by [id] raises whatever the value: the model has no
    such field. *)
Lemma Student_get_by_id (key : pyval) (more : list (string * pyval)) (rows : list Student.t) :
  objects_get (("id", key) :: more) rows = inl (FieldError "id").
Proof. reflexivity. Qed.

Lemma MealStatus_get_by_id (key : pyval) (more : list (string * pyval))
    (rows : list MealStatus.t) :
  objects_get (("id", key) :: more) rows = inl (FieldError "id").
Proof. reflexivity. Qed.

(** A [DELETE] on the student endpoint raises as soon as the body gives a
    [student_id], whether the record exists or not. *)
Lemma studentApi_delete_raises (request : request) (id data key : pyval) (d : db) :
  method request = "DELETE" ->
  body request = Some data ->
  getitem data "student_id" = inr key ->
  run (studentApi request id) d = (inl (FieldError "id"), d).
Proof.
  intros Hm Hb Hk. unfold studentApi. rewrite Hm. run_view.
  rewrite Hb, Hk. reflexivity.
Qed.

(** A [DELETE] for a key that [get] does not find raises and changes
    nothing. *)
Lemma scheduleApi_delete_missing (request : request) (id data key : pyval) (d : db) (e : exn) :
  method request = "DELETE" ->
  body request = Some data ->
  getitem data "schedule_id" = inr key ->
  objects_get [("schedule_id", key)] (schedules d) = inl e ->
  run (scheduleApi request id) d = (inl e, d).
Proof.
  intros Hm Hb Hk Hget. unfold scheduleApi. rewrite Hm. run_view.
  rewrite Hb, Hk, Hget. reflexivity.
Qed.

Lemma mealStatusApi_delete_missing (request : request) (id data key : pyval) (d : db) (e : exn) :
  method request = "DELETE" ->
  body request = Some data ->
  getitem data "student_id" = inr key ->
  objects_get [("student_id", key)] (statuses d) = inl e ->
  run (mealStatusApi request id) d = (inl e, d).
Proof.
  intros Hm Hb Hk Hget. unfold mealStatusApi. rewrite Hm. run_view.
  rewrite Hb, Hk, Hget. reflexivity.
Qed.

(** [get] with no matching row raises [DoesNotExist]. *)
Lemma objects_get_no_row {R} `{Model R} (kwargs : list (string * pyval)) (rows : list R)
    (p : R -> bool) :
  build_filter kwargs = inr p ->
  List.filter p rows = [] ->
  objects_get kwargs rows = inl (DoesNotExist model_name).
Proof. intros Hp Hnone. unfold objects_get. now rewrite Hp, Hnone. Qed.

(** Whatever a [DELETE] view returns, it is the success message: the
    "No such a data." answer is never given. *)
Lemma delete_views_answer (request : request) (id : pyval) (d : db) (r : HttpResponse) :
  method request = "DELETE" ->
  fst (run (studentApi request id) d) = inr r
  \/ fst (run (scheduleApi request id) d) = inr r
  \/ fst (run (mealStatusApi request id) d) = inr r ->
  content r = VStr "Data Deleted Sucessfully!".
Proof.
  intros Hm [Hr|[Hr|Hr]]; revert Hr;
    unfold studentApi, scheduleApi, mealStatusApi; rewrite Hm; run_view;
    destruct (body request) as [data|]; simpl; try discriminate;
    destruct (getitem data _) as [e|key]; simpl; try discriminate.
  - destruct (objects_get _ (schedules d)) as [e|row]; simpl; [discriminate|].
    now intros [= <-].
  - destruct (objects_get _ (statuses d)) as [e|row]; simpl; [discriminate|].
    now intros [= <-].
Qed.

(** *** [POST] with a body the serializer rejects *)

Lemma studentApi_post_invalid (request : request) (id data : pyval) (d : db) :
  method request = "POST" ->
  body request = Some data ->
  StudentSerializer_is_valid d None data = None ->
  run (studentApi request id) d = (inl TypeError, d).
Proof.
  intros Hm Hb Hv. unfold studentApi. rewrite Hm. run_view.
  rewrite Hb, Hv. reflexivity.
Qed.

Lemma scheduleApi_post_invalid (request : request) (id data : pyval) (d : db) :
  method request = "POST" ->
  body request = Some data ->
  ScheduleSerializer_is_valid d None data = None ->
  run (scheduleApi request id) d
  = (inr {| content := VStr "Failed to Add."; status := 200 |}, d).
Proof.
  intros Hm Hb Hv. unfold scheduleApi. rewrite Hm. run_view.
  rewrite Hb, Hv. reflexivity.
Qed.

Lemma userApi_post_invalid (request : request) (id data : pyval) (d : db) :
  method request = "POST" ->
  body request = Some data ->
  UserSerializer_is_valid d None data = None ->
  run (userApi request id) d
  = (inr {| content := VStr "Failed to Add."; status := 400 |}, d).
Proof.
  intros Hm Hb Hv. unfold userApi. rewrite Hm. run_view.
  rewrite Hb, Hv. reflexivity.
Qed.

Lemma userApi_post_valid (request : request) (id data : pyval) (d : db) (v : User.data) :
  method request = "POST" ->
  body request = Some data ->
  UserSerializer_is_valid d None data = Some v ->
  fst (run (userApi request id) d)
  = inr {| content := VStr "User Added Sucessfully!"; status := 201 |}.
Proof.
  intros Hm Hb Hv. unfold userApi. rewrite Hm. run_view.
  rewrite Hb, Hv. reflexivity.
Qed.

Lemma mealStatusApi_post_invalid (request : request) (id data : pyval) (d : db) :
  method request = "POST" ->
  body request = Some data ->
  MealStatusSerializer_is_valid d None data = None ->
  run (mealStatusApi request id) d
  = (inr {| content := VStr "Failed to Add."; status := 400 |}, d).
Proof.
  intros Hm Hb Hv. unfold mealStatusApi. rewrite Hm. run_view.
  rewrite Hb, Hv. reflexivity.
Qed.

Lemma scheduleApi_put_invalid (request : request) (id data key : pyval) (d : db)
    (row : Schedule.t) :
  method request = "PUT" ->
  body request = Some data ->
  getitem data "schedule_id" = inr key ->
  objects_get [("schedule_id", key)] (schedules d) = inr row ->
  ScheduleSerializer_is_valid d (Some row) data = None ->
  run (scheduleApi request id) d
  = (inr {| content := VStr "Failed to Update."; status := 200 |}, d).
Proof.
  intros Hm Hb Hk Hget Hv. unfold scheduleApi. rewrite Hm. run_view.
  rewrite Hb, Hk, Hget, Hv. reflexivity.
Qed.

(** A [PUT] on the student endpoint raises before the serializer is
    asked: its failure answer is never given. *)
Lemma studentApi_put_raises (request : request) (id data key : pyval) (d : db) :
  method request = "PUT" ->
  body request = Some data ->
  getitem data "student_id" = inr key ->
  run (studentApi request id) d = (inl (FieldError "id"), d).
Proof.
  intros Hm Hb Hk. unfold studentApi. rewrite Hm. run_view.
  rewrite Hb, Hk. reflexivity.
Qed.

(** *** [GET] with the default [id] *)

Lemma userApi_get_default (request : request) (d : db) :
  method request = "GET" ->
  run (userApi request (view_id userApi_view)) d
  = (inr {| content := many UserSerializer_data (users d); status := 200 |}, d).
Proof. intros Hm. unfold userApi. rewrite Hm. reflexivity. Qed.

Lemma mealStatusApi_get_default (request : request) (d : db) :
  method request = "GET" ->
  run (mealStatusApi request (view_id mealStatusApi_view)) d
  = (inr {| content := many MealStatusSerializer_data (statuses d); status := 200 |}, d).
Proof. intros Hm. unfold mealStatusApi. rewrite Hm. reflexivity. Qed.

Lemma strip_prefix_self (text n : string) : strip_prefix text (text +:+ n) = Some n.
Proof.
  induction text as [|a r IH]; [reflexivity|].
  simpl. now rewrite Ascii.eqb_refl.
Qed.

(** The pattern of the bare resource does not match a path with a segment. *)
Lemma find_match_resource_only (m : matching) (a : ascii) (r n : string) :
  clash (String a r) r = true ->
  all_alnum (String a r) = false ->
  n <> "" -> all_alnum n = true ->
  find_match m [Lit (String a r); Dollar] (String a r +:+ n) = None.
Proof.
  intros Hclash Hres Hne Hn.
  pose proof (strip_prefix_self (String a r) n) as Hstrip.
  destruct m; unfold find_match.
  - change (String a r +:+ n) with (String a (r +:+ n)).
    rewrite search_cons, match_here_lit.
    change (String a (r +:+ n)) with (String a r +:+ n). rewrite Hstrip.
    rewrite match_here_dollar, (at_end_alnum n Hne Hn).
    now apply search_clash_none.
  - unfold fullmatch. rewrite match_here_lit, Hstrip, match_here_dollar.
    now rewrite (at_end_alnum n Hne Hn).
Qed.

Lemma find_match_segment (m : matching) (resource n : string) :
  resource <> "" ->
  n <> "" -> all_alnum n = true ->
  find_match m [Lit resource; Plus alnum; Dollar] (resource +:+ n) = Some [].
Proof.
  intros Hr Hne Hn.
  pose proof (strip_prefix_self resource n) as Hstrip.
  destruct m; unfold find_match.
  - destruct resource as [|a r]; [congruence|].
    change (String a r +:+ n) with (String a (r +:+ n)).
    rewrite search_cons, match_here_lit.
    change (String a (r +:+ n)) with (String a r +:+ n). rewrite Hstrip.
    now rewrite plus_alnum_matches.
  - unfold fullmatch. rewrite match_here_lit, Hstrip.
    now rewrite plus_alnum_matches.
Qed.

(** A pattern for another resource does not match the path. *)
Lemma find_match_other (m : matching) (text : string) (p : list atom) (s n : string) :
  clash text s = true -> all_alnum text = false -> s <> "" -> all_alnum n = true ->
  find_match m (Lit text :: p) (s +:+ n) = None.
Proof.
  intros Hclash Htext Hs Hn. destruct m; simpl.
  - now apply search_clash_none.
  - apply fullmatch_mismatch. destruct s as [|c s]; [congruence|].
    simpl in Hclash. now apply andb_true_iff in Hclash as [Hm _].
Qed.

Lemma resolve_user (n : string) :
  n <> "" -> all_alnum n = true ->
  resolve url_matching urlpatterns ("user/" +:+ n) = Some (userApi_view, []).
Proof.
  intros Hne Hn. unfold urlpatterns. cbn [resolve].
  rewrite !(find_match_other _ "student/" _ "user/" n) by (reflexivity || discriminate || exact Hn).
  rewrite (find_match_resource_only _ "u" "ser/" n) by (reflexivity || assumption).
  now rewrite (find_match_segment _ "user/" n) by (discriminate || assumption).
Qed.

Lemma resolve_meal_status (n : string) :
  n <> "" -> all_alnum n = true ->
  resolve url_matching urlpatterns ("meal-status/" +:+ n) = Some (mealStatusApi_view, []).
Proof.
  intros Hne Hn. unfold urlpatterns. cbn [resolve].
  rewrite !(find_match_other _ "student/" _ "meal-status/" n)
    by (reflexivity || discriminate || exact Hn).
  rewrite !(find_match_other _ "user/" _ "meal-status/" n)
    by (reflexivity || discriminate || exact Hn).
  rewrite !(find_match_other _ "schedule/" _ "meal-status/" n)
    by (reflexivity || discriminate || exact Hn).
  rewrite (find_match_resource_only _ "m" "eal-status/" n) by (reflexivity || assumption).
  now rewrite (find_match_segment _ "meal-status/" n) by (discriminate || assumption).
Qed.

End ViewProperties.

(** ** The endpoints *)

Section Endpoints.
Import Django.

(** C4.  No pattern of [urlpatterns] has a capturing group: whatever path
    resolves, the view is called with [request] alone, so [id] has its
    default ([-1] for [userApi] and [mealStatusApi], [0] for [studentApi]
    and [scheduleApi]).  A [GET] of [user/<n>] or [meal-status/<n>], for
    any alphanumeric [n], therefore returns the whole serialized
    collection with status 200 and leaves the database as it is. *)
Theorem url_patterns_capture_nothing (F : Framework) :
  (forall path v args,
      resolve url_matching urlpatterns path = Some (v, args) ->
      args = []
      /\ v ∈ [studentApi_view; userApi_view; scheduleApi_view; mealStatusApi_view]
      /\ forall request, dispatch path request = view_fn v request (view_id v))
  /\ view_id userApi_view = VInt (-1)
  /\ view_id mealStatusApi_view = VInt (-1)
  /\ view_id studentApi_view = VInt 0
  /\ view_id scheduleApi_view = VInt 0
  /\ (forall n body d,
        n <> "" -> all_alnum n = true ->
        run (dispatch ("user/" +:+ n) (mkRequest "GET" body)) d
        = (inr {| content := many UserSerializer_data (users d); status := 200 |}, d))
  /\ (forall n body d,
        n <> "" -> all_alnum n = true ->
        run (dispatch ("meal-status/" +:+ n) (mkRequest "GET" body)) d
        = (inr {| content := many MealStatusSerializer_data (statuses d); status := 200 |}, d)).
Proof.
  split; [|repeat split].
  - intros path v args Hres.
    assert (args = []) as -> by (eapply resolve_captures; eauto using urlpatterns_capture_free).
    split; [reflexivity|]. split.
    + apply resolve_listed in Hres as [p Hp]. unfold urlpatterns in Hp.
      repeat (apply elem_of_cons in Hp as [[= _ ->]|Hp];
              [repeat (first [apply list_elem_of_here | apply list_elem_of_further])|]).
      now apply elem_of_nil in Hp.
    + intros request. unfold dispatch. now rewrite Hres.
  - intros n body d Hne Hn. unfold dispatch. rewrite (resolve_user n Hne Hn).
    now apply userApi_get_default.
  - intros n body d Hne Hn. unfold dispatch. rewrite (resolve_meal_status n Hne Hn).
    now apply mealStatusApi_get_default.
Qed.

End Endpoints.

(** C1, on the database with one student and its meal status: a [DELETE]
    that names a record which does not exist ends in an exception on each
    of the three endpoints ([FieldError] for the student, [DoesNotExist]
    for the schedule and the meal status); "No such a data." is not
    returned. *)
Theorem delete_missing_record_raises :
  Django.run
    (Django.dispatch (F := Django.simple) "student/"
       (Django.mkRequest "DELETE"
          (Some (Django.VDict [("student_id", Django.VStr "UGR/0000/00")]))))
    Django.example_db
  = (inl (FieldError "id"), Django.example_db)
  /\ Django.run
       (Django.dispatch (F := Django.simple) "schedule/"
          (Django.mkRequest "DELETE" (Some (Django.VDict [("schedule_id", Django.VInt 7)]))))
       Django.example_db
     = (inl (DoesNotExist "Schedule"), Django.example_db)
  /\ Django.run
       (Django.dispatch (F := Django.simple) "meal-status/"
          (Django.mkRequest "DELETE"
             (Some (Django.VDict [("student_id", Django.VStr "UGR/0000/00")]))))
       Django.example_db
     = (inl (DoesNotExist "MealStatus"), Django.example_db).
Proof.
  split; [|split]; vm_compute; reflexivity.
Qed.

(** C2, on the empty database: a [POST] with a body the serializer
    rejects raises [TypeError] on the student endpoint (the response is
    built without [safe=False]) and returns "Failed to Add." on the
    schedule endpoint. *)
Theorem student_post_invalid_raises :
  Django.run
    (Django.dispatch (F := Django.simple) "student/"
       (Django.mkRequest "POST" (Some (Django.VDict []))))
    Django.empty_db
  = (inl TypeError, Django.empty_db)
  /\ Django.run
       (Django.dispatch (F := Django.simple) "schedule/"
          (Django.mkRequest "POST" (Some (Django.VDict []))))
       Django.empty_db
     = (inr {| Django.content := Django.VStr "Failed to Add."; Django.status := 200 |},
        Django.empty_db).
Proof.
  split; vm_compute; reflexivity.
Qed.


(** * Further properties of the scanner *)

Section ScannerRuns.
Import Scanner.

Variable image : Type.
Variable decode : image -> list Decoded.
Variable jpeg : image -> image.

Abbreviation world := (world image).
Abbreviation tick := (tick image).

(** A run whose first iteration to meet the exit condition is [n] returns,
    with any fuel above [n], what [read_bar] gives on the world that
    iteration leaves. *)
Lemma decode_barcode_first_stop (inputs : nat -> tick) (n fuel : nat) (w : world) :
  (forall j, (j < n)%nat -> stops (inputs j) = false) ->
  stops (inputs n) = true ->
  (n < fuel)%nat ->
  decode_barcode image decode jpeg inputs fuel w
  = Some (read_bar image decode capture_file
            (snd (loop_body image jpeg (inputs n)
                    (mkWorld (files w) (stdout w)
                       ((log w ++ [VideoCapture 0]) ++ loop_events inputs 0 n))))).
Proof.
  intros Hbefore Hstop Hfuel. unfold decode_barcode.
  destruct (capture_loop_total image jpeg inputs n fuel 0 (emit (VideoCapture 0) w))
    as [w1 Hloop]; [lia | exact Hstop |].
  rewrite Hloop.
  apply capture_loop_exit in Hloop as (m & Hm & Hsm & Hbm & ->).
  assert (m = n) as ->.
  { destruct (Nat.lt_trichotomy m n) as [Hlt|[Heq|Hgt]]; [|exact Heq|].
    - rewrite (Hbefore m Hlt) in Hsm. discriminate.
    - rewrite (Hbm n) in Hstop by lia. discriminate. }
  replace (n - 0)%nat with n by lia. reflexivity.
Qed.

Lemma read_bar_files (filename : string) (w : world) :
  files (snd (read_bar image decode filename w)) = files w
  /\ stdout (snd (read_bar image decode filename w)) = stdout w
  /\ fst (read_bar image decode filename w)
     = read_bar_result image decode (files w !! filename).
Proof.
  destruct (read_bar_run image decode filename w) as (drawn & -> & _). now simpl.
Qed.

(** X1.  When the loop is left with Enter or Space, [scanned] renders
    "index.html" with, as [decoded], the text of the first barcode found
    in the frame captured in that iteration, whatever "barcode__.jpg" held
    before. *)
Theorem scanned_shows_captured_frame (inputs : nat -> tick) (n fuel : nat) (w : world)
    (first : Decoded) (others : list Decoded) :
  (forall j, (j < n)%nat -> stops (inputs j) = false) ->
  saves (inputs n) = true ->
  (n < fuel)%nat ->
  decode (jpeg (frame (inputs n))) = first :: others ->
  exists w',
    scanned image decode jpeg inputs fuel w
    = Some (inr {| template := "index.html";
                   context := [("decoded",
                                string_of_list_ascii (map ascii_of_byte (data first)))] |},
            w').
Proof.
  intros Hbefore Hsave Hfuel Hdec. unfold scanned.
  rewrite (decode_barcode_first_stop inputs n fuel w Hbefore (saves_stops _ _ Hsave) Hfuel).
  destruct (read_bar_files capture_file
              (snd (loop_body image jpeg (inputs n)
                      (mkWorld (files w) (stdout w)
                         ((log w ++ [VideoCapture 0]) ++ loop_events inputs 0 n)))))
    as (_ & _ & Hres).
  rewrite loop_body_files, Hsave in Hres. simpl in Hres.
  rewrite lookup_insert_eq in Hres. simpl in Hres. rewrite Hdec in Hres.
  destruct (read_bar image decode capture_file _) as [r w']. simpl in Hres. subst r.
  exists w'. now rewrite decode_chars_map.
Qed.

(** X2.  When the loop is left with ESC or by a failed capture, no file is
    written and the value returned is the one [read_bar] computes from the
    "barcode__.jpg" that was there before the call: the result of an
    earlier capture, or [TypeError] when there is none. *)
Theorem decode_barcode_cancel_reads_old_file (inputs : nat -> tick) (n fuel : nat)
    (w : world) :
  (forall j, (j < n)%nat -> stops (inputs j) = false) ->
  stops (inputs n) = true ->
  saves (inputs n) = false ->
  (n < fuel)%nat ->
  exists w',
    decode_barcode image decode jpeg inputs fuel w
    = Some (read_bar_result image decode (files w !! capture_file), w')
    /\ files w' = files w.
Proof.
  intros Hbefore Hstop Hsave Hfuel.
  rewrite (decode_barcode_first_stop inputs n fuel w Hbefore Hstop Hfuel).
  destruct (read_bar_files capture_file
              (snd (loop_body image jpeg (inputs n)
                      (mkWorld (files w) (stdout w)
                         ((log w ++ [VideoCapture 0]) ++ loop_events inputs 0 n)))))
    as (Hfiles & _ & Hres).
  rewrite loop_body_files, Hsave in Hres, Hfiles. simpl in Hres, Hfiles.
  destruct (read_bar image decode capture_file _) as [r w']. simpl in *. subst r.
  exists w'. split; [reflexivity | exact Hfiles].
Qed.

(** X3.  A call of [decode_barcode] that returns has changed no file other
    than "barcode__.jpg", and has printed nothing, or the one line
    "Failed to capture". *)
Theorem decode_barcode_touches_one_file (inputs : nat -> tick) (fuel : nat) (w w' : world)
    (r : res string) :
  decode_barcode image decode jpeg inputs fuel w = Some (r, w') ->
  (forall name, name <> capture_file -> files w' !! name = files w !! name)
  /\ (stdout w' = stdout w \/ stdout w' = stdout w ++ ["Failed to capture"]).
Proof.
  unfold decode_barcode.
  destruct (capture_loop image jpeg inputs fuel 0 (emit (VideoCapture 0) w))
    as [w1|] eqn:Hloop; [|discriminate].
  apply capture_loop_exit in Hloop as (n & _ & _ & _ & ->).
  intros [= Hr]. 
  match type of Hr with read_bar _ _ _ ?W = _ =>
    destruct (read_bar_files capture_file W) as (Hfiles & Hout & _) end.
  rewrite Hr in Hfiles, Hout. simpl in Hfiles, Hout.
  rewrite loop_body_files in Hfiles. rewrite loop_body_stdout in Hout.
  simpl in Hfiles, Hout. split.
  - intros name Hname. rewrite Hfiles.
    destruct (saves (inputs n)); [|reflexivity].
    now apply lookup_insert_ne.
  - destruct (ret (inputs n)); [now left | now right].
Qed.

End ScannerRuns.

(** X4.  The text [read_bar] builds from the bytes of a barcode has one
    character per byte and determines the bytes: reading the characters
    back as bytes gives the data again. *)
Theorem decode_chars_round_trip (d : list Byte.byte) :
  map byte_of_ascii (list_ascii_of_string (Scanner.decode_chars d)) = d
  /\ String.length (Scanner.decode_chars d) = length d.
Proof.
  rewrite decode_chars_map. split.
  - rewrite list_ascii_of_string_of_list_ascii, map_map.
    rewrite <- (map_id d) at 2. apply map_ext. intros b. apply byte_of_ascii_of_byte.
  - induction d as [|b d IH]; [reflexivity|]. simpl. now rewrite IH.
Qed.

(** X1 on a run of two iterations: no key, then Enter on a frame with a
    barcode. *)
Lemma scanned_shows_captured_frame_witness :
  exists w',
    Scanner.scanned nat
      (fun img => if Nat.eqb img 2 then [Scanner.mkDecoded [x41; x42]%byte (5, 6, 30, 20)]
                  else [])
      id
      (fun i => if Nat.eqb i 0 then Scanner.mkTick true 1%nat (-1)
                else Scanner.mkTick true 2%nat 13)
      5 (Scanner.mkWorld ∅ [] [])
    = Some (inr {| Scanner.template := "index.html";
                   Scanner.context := [("decoded", "AB")] |}, w').
Proof.
  apply (scanned_shows_captured_frame nat
           (fun img => if Nat.eqb img 2 then [Scanner.mkDecoded [x41; x42]%byte (5, 6, 30, 20)]
                       else [])
           id
           (fun i => if Nat.eqb i 0 then Scanner.mkTick true 1%nat (-1)
                     else Scanner.mkTick true 2%nat 13)
           1%nat 5%nat (Scanner.mkWorld ∅ [] [])
           (Scanner.mkDecoded [x41; x42]%byte (5, 6, 30, 20)) []).
  - intros j Hj. assert (j = O) as -> by lia. reflexivity.
  - reflexivity.
  - lia.
  - reflexivity.
Defined.

(** X2 on a run ended by ESC over a file left by an earlier capture. *)
Lemma decode_barcode_cancel_reads_old_file_witness :
  exists w',
    Scanner.decode_barcode nat
      (fun img => if Nat.eqb img 9 then [Scanner.mkDecoded [x5a]%byte (0, 0, 1, 1)] else [])
      id (fun _ => Scanner.mkTick true 1%nat 27) 1
      (Scanner.mkWorld {["barcode__.jpg" := 9%nat]} [] [])
    = Some (Scanner.read_bar_result nat
              (fun img => if Nat.eqb img 9 then [Scanner.mkDecoded [x5a]%byte (0, 0, 1, 1)]
                          else [])
              (({["barcode__.jpg" := 9%nat]} : gmap string nat) !! Scanner.capture_file), w')
    /\ Scanner.files w' = {["barcode__.jpg" := 9%nat]}.
Proof.
  refine (decode_barcode_cancel_reads_old_file nat
            (fun img => if Nat.eqb img 9 then [Scanner.mkDecoded [x5a]%byte (0, 0, 1, 1)]
                        else [])
            id (fun _ => Scanner.mkTick true 1%nat 27) 0%nat 1%nat
            (Scanner.mkWorld {["barcode__.jpg" := 9%nat]} [] []) _ _ _ _).
  - intros j Hj. lia.
  - reflexivity.
  - reflexivity.
  - lia.
Defined.

(** X3 on a run ended by a failed capture. *)
Lemma decode_barcode_touches_one_file_witness :
  (forall name, name <> Scanner.capture_file ->
     (∅ : gmap string nat) !! name = (∅ : gmap string nat) !! name)
  /\ (["Failed to capture"] = @nil string
      \/ ["Failed to capture"] = [] ++ ["Failed to capture"]).
Proof.
  apply (decode_barcode_touches_one_file nat (fun _ => []) id
           (fun _ => Scanner.mkTick false 0%nat 0) 1%nat
           (Scanner.mkWorld ∅ [] [])
           (Scanner.mkWorld ∅ ["Failed to capture"]
              [Scanner.VideoCapture 0; Scanner.CamRead; Scanner.Print "Failed to capture";
               Scanner.ImRead "barcode__.jpg"])
           (inl TypeError)).
  vm_compute. reflexivity.
Defined.

(** * Further properties of the backend *)

Section ViewRuns.
Import Django.
Context {F : Framework}.

Ltac run_view :=
  unfold run, json_request, mbind, M_bind, bind, lift, gets, get_from, respond, raise,
    parse, not_None;
  simpl.

(** *** Reading and raising *)

Lemma reads_only_lift {A} (r : res A) : reads_only (lift r).
Proof. intros d. reflexivity. Qed.

Lemma reads_only_raise {A} (e : exn) : reads_only (@raise A e).
Proof. intros d. reflexivity. Qed.

Lemma reads_only_gets {A} (f : db -> A) : reads_only (gets f).
Proof. intros d. reflexivity. Qed.

Lemma reads_only_respond (data : pyval) (safe : bool) (status : Z) :
  reads_only (respond data safe status).
Proof. intros d. reflexivity. Qed.

Lemma reads_only_get_from {R} `{Model R} (table : db -> list R)
    (kwargs : list (string * pyval)) :
  reads_only (get_from table kwargs).
Proof. intros d. reflexivity. Qed.

Lemma reads_only_bind {A B} (c : M A) (k : A -> M B) :
  reads_only c -> (forall a, reads_only (k a)) -> reads_only (c ≫= k).
Proof.
  intros Hc Hk d. unfold mbind, M_bind, bind. specialize (Hc d).
  destruct (c d) as [[e|a] d1]; simpl in *; [exact Hc|].
  subst d1. apply Hk.
Qed.

Lemma reads_only_unchanged {A} (c : M A) : reads_only c -> unchanged_on_raise c.
Proof. intros Hc d e d' Hrun. specialize (Hc d). rewrite Hrun in Hc. exact Hc. Qed.

Lemma unchanged_bind_read {A B} (c : M A) (k : A -> M B) :
  reads_only c -> (forall a, unchanged_on_raise (k a)) -> unchanged_on_raise (c ≫= k).
Proof.
  intros Hc Hk d e d'. unfold mbind, M_bind, bind. specialize (Hc d).
  destruct (c d) as [[e1|a] d1]; simpl in *; subst d1.
  - now intros [= _ <-].
  - apply Hk.
Qed.

Lemma unchanged_bind_write {A B} (c : M A) (k : A -> M B) :
  unchanged_on_raise c -> (forall a, never_raises (k a)) -> unchanged_on_raise (c ≫= k).
Proof.
  intros Hc Hk d e d'. unfold mbind, M_bind, bind.
  destruct (c d) as [[e1|a] d1] eqn:Hrun.
  - intros [= _ <-]. eapply Hc; eauto.
  - destruct (Hk a d1) as (b & d2 & ->). discriminate.
Qed.

Lemma never_raises_respond (data : pyval) (status : Z) :
  never_raises (respond data false status).
Proof. intros d. eexists _, _. reflexivity. Qed.

Lemma never_raises_mret {A} (a : A) : never_raises (mret a).
Proof. intros d. eexists _, _. reflexivity. Qed.

Lemma unchanged_modify (f : db -> db) : unchanged_on_raise (modify f).
Proof. intros d e d'. discriminate. Qed.

Lemma unchanged_Student_create (s : Student.t) : unchanged_on_raise (Student_create s).
Proof.
  intros d e d'. unfold Student_create.
  destruct (insert_row _ _ _ _); [now intros [= _ <-] | discriminate].
Qed.

Lemma unchanged_User_create (v : User.data) : unchanged_on_raise (User_create v).
Proof. intros d e d'. discriminate. Qed.

Lemma unchanged_Schedule_create (v : Schedule.data) : unchanged_on_raise (Schedule_create v).
Proof. intros d e d'. discriminate. Qed.

Lemma unchanged_MealStatus_create (m : MealStatus.t) :
  unchanged_on_raise (MealStatus_create m).
Proof.
  intros d e d'. unfold MealStatus_create.
  destruct (references_student m d); [|now intros [= _ <-]].
  destruct (insert_row _ _ _ _); [now intros [= _ <-] | discriminate].
Qed.

Lemma unchanged_MealStatus_save (m : MealStatus.t) :
  unchanged_on_raise (MealStatus_save m).
Proof.
  intros d e d'. unfold MealStatus_save.
  destruct (references_student m d); [discriminate | now intros [= _ <-]].
Qed.

(** Walks through a view: reads first, one write at the end, then a
    response that cannot fail. *)
Ltac settle :=
  repeat first
    [ apply unchanged_bind_read;
        [ first [ apply reads_only_lift | apply reads_only_gets | apply reads_only_get_from ]
        | intros ? ]
    | apply unchanged_bind_write;
        [ first [ apply unchanged_Student_create | apply unchanged_User_create
                | apply unchanged_Schedule_create | apply unchanged_MealStatus_create
                | apply unchanged_MealStatus_save | apply unchanged_modify ]
        | intros ?; apply never_raises_respond ]
    | apply reads_only_unchanged;
        first [ apply reads_only_respond | apply reads_only_raise ]
    | match goal with
      | |- unchanged_on_raise (if ?b then _ else _) => destruct b
      | |- unchanged_on_raise (match ?x with _ => _ end) => destruct x
      end ].

Lemma unchanged_studentApi (request : request) (id : pyval) :
  unchanged_on_raise (studentApi request id).
Proof. unfold studentApi, not_None, Student_save, Student_delete. settle. Qed.

Lemma unchanged_userApi (request : request) (id : pyval) :
  unchanged_on_raise (userApi request id).
Proof. unfold userApi, not_None, User_save, User_delete. settle. Qed.

Lemma unchanged_scheduleApi (request : request) (id : pyval) :
  unchanged_on_raise (scheduleApi request id).
Proof. unfold scheduleApi, not_None, Schedule_save, Schedule_delete. settle. Qed.

Lemma unchanged_mealStatusApi (request : request) (id : pyval) :
  unchanged_on_raise (mealStatusApi request id).
Proof. unfold mealStatusApi, not_None, MealStatus_delete. settle. Qed.

Lemma unchanged_views :
  Forall (fun pv => forall request id, unchanged_on_raise (view_fn (snd pv) request id))
         urlpatterns.
Proof.
  unfold urlpatterns.
  repeat (apply List.Forall_cons;
          [ simpl; intros request id;
            first [ apply unchanged_studentApi | apply unchanged_userApi
                  | apply unchanged_scheduleApi | apply unchanged_mealStatusApi ] |]).
  apply List.Forall_nil.
Qed.

(** X5.  A request that ends in an exception leaves the database exactly
    as it was: every view does its one write last, and the response built
    after it cannot fail. *)
Theorem failed_request_changes_nothing (path : string) (request : request)
    (d d' : db) (e : exn) :
  run (dispatch path request) d = (inl e, d') -> d' = d.
Proof.
  unfold run, dispatch.
  destruct (resolve url_matching urlpatterns path) as [[v args]|] eqn:Hres;
    [|now intros [= _ <-]].
  apply resolve_listed in Hres as [p Hp].
  pose proof unchanged_views as Hall. rewrite Forall_forall in Hall.
  specialize (Hall _ Hp). simpl in Hall.
  unfold call_view. destruct args as [|a [|b args]].
  - apply Hall.
  - apply Hall.
  - now intros [= _ <-].
Qed.

(** X6.  Every request keeps the database consistent: keys stay unique in
    the four tables, the key sequences stay at or above the keys in use,
    and every meal status still references a stored student. *)
Theorem request_keeps_database_consistent (path : string) (request : request) (d : db) :
  consistent d -> consistent (snd (run (dispatch path request) d)).
Proof. intros Hd. now apply preserves_dispatch. Qed.

(** *** Views that can only raise *)

(** X7.  [PUT] and [DELETE] on the student view and [PUT] on the
    meal-status view never change anything: they look the record up by a
    field [id] that these models do not have, so whatever the body they
    end in an exception with the database untouched. *)
Theorem student_and_meal_status_never_updated (body : option pyval) (id : pyval) (d : db) :
  (exists e, run (studentApi (mkRequest "PUT" body) id) d = (inl e, d))
  /\ (exists e, run (studentApi (mkRequest "DELETE" body) id) d = (inl e, d))
  /\ (exists e, run (mealStatusApi (mkRequest "PUT" body) id) d = (inl e, d)).
Proof.
  unfold studentApi, mealStatusApi. run_view.
  destruct body as [data|]; simpl; [|eauto 6].
  destruct (getitem data "student_id") as [e1|k1];
    destruct (getitem data "id") as [e2|k2]; simpl; eauto 6.
Qed.

End ViewRuns.

(** X5 on a [POST] that the student serializer rejects. *)
Lemma failed_request_changes_nothing_witness :
  Django.run
    (Django.dispatch (F := Django.simple) "student/"
       (Django.mkRequest "POST" (Some (Django.VDict []))))
    Django.example_db
  = (inl TypeError, Django.example_db)
  /\ Django.example_db = Django.example_db.
Proof.
  split; [vm_compute; reflexivity|].
  apply (failed_request_changes_nothing (F := Django.simple) "student/"
           (Django.mkRequest "POST" (Some (Django.VDict [])))
           Django.example_db Django.example_db TypeError).
  vm_compute. reflexivity.
Defined.

(** X6 on a [POST] that adds a meal status to the database of one student. *)
Lemma request_keeps_database_consistent_witness :
  Django.consistent
    (snd (Django.run
            (Django.dispatch (F := Django.simple) "meal-status/"
               (Django.mkRequest "POST"
                  (Some (Django.VDict [("student_id", Django.VStr "UGR/1234/12")]))))
            (snd (Django.run_op (Django.OpStudentCreate Django.example_student)
                    Django.empty_db)))).
Proof.
  apply (request_keeps_database_consistent (F := Django.simple)).
  apply (preserves_run_op (Django.OpStudentCreate Django.example_student)).
  apply consistent_empty.
Defined.

(** ** Requests and what they return *)

Section Requests.
Import Django.
Context {F : Framework}.

Ltac run_view :=
  unfold run, json_request, mbind, M_bind, bind, lift, gets, get_from, respond, raise,
    parse, not_None;
  simpl.

(** The four collections a [GET] can list. *)
Lemma studentApi_get (request : request) (id : pyval) (d : db) :
  method request = "GET" ->
  run (studentApi request id) d
  = (inr {| content := many StudentSerializer_data (students d); status := 200 |}, d).
Proof. intros Hm. unfold studentApi. rewrite Hm. reflexivity. Qed.

Lemma scheduleApi_get (request : request) (id : pyval) (d : db) :
  method request = "GET" ->
  run (scheduleApi request id) d
  = (inr {| content := many ScheduleSerializer_data (schedules d); status := 200 |}, d).
Proof. intros Hm. unfold scheduleApi. rewrite Hm. reflexivity. Qed.

(** X9.  Called with an [id] other than [-1], [GET] on the user view and on
    the meal-status view never returns a record: the user view raises
    when the lookup fails and, when it succeeds, at the use of the unbound
    name [users_serializer]; the meal-status view looks up a field [id]
    the model does not have. *)
Theorem get_by_id_always_raises (body : option pyval) (id : pyval) (d : db) :
  eq_int id (-1) = false ->
  (exists e, run (userApi (mkRequest "GET" body) id) d = (inl e, d))
  /\ (forall u, objects_get [("id", id)] (users d) = inr u ->
        run (userApi (mkRequest "GET" body) id) d
        = (inl (UnboundLocalError "users_serializer"), d))
  /\ run (mealStatusApi (mkRequest "GET" body) id) d = (inl (FieldError "id"), d).
Proof.
  intros Hid. unfold userApi, mealStatusApi. run_view. rewrite Hid.
  repeat split.
  - destruct (objects_get _ (users d)); simpl; eauto.
  - intros u ->. reflexivity.
Qed.

(** X10.  What [GET] lists for a schedule has no [schedule_id]: sent back
    as the body of a [PUT] or a [DELETE] on the schedule view it raises
    [KeyError], so the listing does not tell a client how to address a
    schedule.  What it lists for a user carries the [id]. *)
Theorem schedule_listing_hides_key (r : Schedule.t) (u : User.t) (id : pyval) (d : db) :
  run (scheduleApi (json_request "PUT" (ScheduleSerializer_data r)) id) d
  = (inl (KeyError "schedule_id"), d)
  /\ run (scheduleApi (json_request "DELETE" (ScheduleSerializer_data r)) id) d
     = (inl (KeyError "schedule_id"), d)
  /\ getitem (UserSerializer_data u) "id" = inr (VInt (User.id u)).
Proof. repeat split. Qed.

(** *** Bodies and methods the views do not expect *)

(** X11.  On each of the four views a [POST], [PUT] or [DELETE] whose body
    is not JSON raises [ParseError] and changes nothing. *)
Theorem body_not_json_raises (method : string) (id : pyval) (d : db) :
  writing method ->
  run (studentApi (mkRequest method None) id) d = (inl ParseError, d)
  /\ run (userApi (mkRequest method None) id) d = (inl ParseError, d)
  /\ run (scheduleApi (mkRequest method None) id) d = (inl ParseError, d)
  /\ run (mealStatusApi (mkRequest method None) id) d = (inl ParseError, d).
Proof.
  intros [-> | [-> | ->]]; repeat split.
Qed.

(** X12.  A [PUT] or [DELETE] whose body does not give the key the view
    reads raises and changes nothing: [KeyError] for that key when the
    body is a dict without it, [TypeError] when the body is not a dict.
    The key is [student_id] on the student view and for [DELETE] on the
    meal-status view, [id] on the user view and for [PUT] on the
    meal-status view, and [schedule_id] on the schedule view. *)
Theorem body_without_key_raises (method : string) (data : pyval) (id : pyval) (d : db)
    (e : exn) :
  method = "PUT" \/ method = "DELETE" ->
  (forall k, getitem data k = inl e ->
     match data with
     | VDict items => assoc k items = None /\ e = KeyError k
     | _ => e = TypeError
     end)
  /\ (getitem data "student_id" = inl e ->
      run (studentApi (json_request method data) id) d = (inl e, d)
      /\ run (mealStatusApi (json_request "DELETE" data) id) d = (inl e, d))
  /\ (getitem data "id" = inl e ->
      run (userApi (json_request method data) id) d = (inl e, d)
      /\ run (mealStatusApi (json_request "PUT" data) id) d = (inl e, d))
  /\ (getitem data "schedule_id" = inl e ->
      run (scheduleApi (json_request method data) id) d = (inl e, d)).
Proof.
  intros Hm. split.
  - intros k. unfold getitem. destruct data as [| | | | |items]; try now intros [= <-].
    destruct (assoc k items); [discriminate | now intros [= <-]].
  - unfold studentApi, userApi, scheduleApi, mealStatusApi.
    destruct Hm as [-> | ->]; run_view;
      (split; [intros ->; split; reflexivity |
       split; [intros ->; split; reflexivity | intros ->; reflexivity]]).
Qed.

(** X13.  A request with a method other than [GET], [POST], [PUT] and
    [DELETE] makes each view return nothing, which the framework reports
    as [ValueError]; the database is not touched. *)
Theorem other_method_raises (request : request) (id : pyval) (d : db) :
  method request <> "GET" -> method request <> "POST" ->
  method request <> "PUT" -> method request <> "DELETE" ->
  run (studentApi request id) d = (inl ValueError, d)
  /\ run (userApi request id) d = (inl ValueError, d)
  /\ run (scheduleApi request id) d = (inl ValueError, d)
  /\ run (mealStatusApi request id) d = (inl ValueError, d).
Proof.
  intros Hget Hpost Hput Hdelete.
  apply String.eqb_neq in Hget, Hpost, Hput, Hdelete.
  unfold studentApi, userApi, scheduleApi, mealStatusApi.
  rewrite Hget, Hpost, Hput, Hdelete. repeat split.
Qed.

End Requests.

(** X9 with [id = 5]. *)
Lemma get_by_id_always_raises_witness :
  Django.run (Django.mealStatusApi (F := Django.simple) (Django.mkRequest "GET" None)
                (Django.VInt 5)) Django.example_db
  = (inl (FieldError "id"), Django.example_db).
Proof.
  apply (get_by_id_always_raises (F := Django.simple) None (Django.VInt 5) Django.example_db).
  reflexivity.
Defined.

(** X11 for [DELETE]. *)
Lemma body_not_json_raises_witness :
  Django.run (Django.userApi (F := Django.simple) (Django.mkRequest "DELETE" None)
                (Django.VInt (-1))) Django.example_db
  = (inl ParseError, Django.example_db).
Proof.
  apply (body_not_json_raises (F := Django.simple) "DELETE" (Django.VInt (-1))
           Django.example_db).
  right. right. reflexivity.
Defined.

(** X12 for a [DELETE] with an empty dict. *)
Lemma body_without_key_raises_witness :
  Django.run (Django.scheduleApi (F := Django.simple)
                (Django.json_request "DELETE" (Django.VDict [])) (Django.VInt 0))
    Django.example_db
  = (inl (KeyError "schedule_id"), Django.example_db).
Proof.
  apply (body_without_key_raises (F := Django.simple) "DELETE" (Django.VDict [])
           (Django.VInt 0) Django.example_db (KeyError "schedule_id")).
  - right. reflexivity.
  - reflexivity.
Defined.

(** X13 for [PATCH]. *)
Lemma other_method_raises_witness :
  Django.run (Django.studentApi (F := Django.simple) (Django.mkRequest "PATCH" None)
                (Django.VInt 0)) Django.example_db
  = (inl ValueError, Django.example_db).
Proof.
  apply (other_method_raises (F := Django.simple) (Django.mkRequest "PATCH" None)
           (Django.VInt 0) Django.example_db); discriminate.
Defined.

(** ** Records: lookup, creation, update and deletion *)

Section Records.
Import Django.
Context {F : Framework}.

Ltac run_view :=
  unfold run, json_request, mbind, M_bind, bind, lift, gets, get_from, respond, raise,
    parse, not_None;
  simpl.

Lemma filter_by_key {R K} `{EqDecision K} (pk : R -> K) (p : R -> bool) (k : K)
    (rows : list R) :
  NoDup (pk <$> rows) ->
  (forall r, p r = true <-> pk r = k) ->
  (forall r, r ∈ rows -> pk r = k -> List.filter p rows = [r])
  /\ ((forall r, r ∈ rows -> pk r <> k) -> List.filter p rows = []).
Proof.
  intros Hnd Hp. induction rows as [|a rows IH].
  - split; [intros r Hr; now apply elem_of_nil in Hr | reflexivity].
  - rewrite fmap_cons in Hnd. apply NoDup_cons in Hnd as [Ha Hnd].
    destruct (IH Hnd) as [IHsome IHnone]. split.
    + intros r Hr Hk. simpl. apply elem_of_cons in Hr as [->|Hr].
      * rewrite (proj2 (Hp a) Hk). f_equal. apply IHnone.
        intros b Hb Hbk. apply Ha. rewrite Hk, <- Hbk. apply list_elem_of_fmap. eauto.
      * destruct (p a) eqn:Epa; [|now apply IHsome].
        exfalso. apply Hp in Epa. apply Ha. rewrite Epa, <- Hk.
        apply list_elem_of_fmap. eauto.
    + intros Hnone. simpl. destruct (p a) eqn:Epa.
      * exfalso. apply Hp in Epa. apply (Hnone a); [apply list_elem_of_here | exact Epa].
      * apply IHnone. intros r Hr. apply Hnone. now apply list_elem_of_further.
Qed.

Lemma objects_get_elem {R} `{Model R} (kwargs : list (string * pyval)) (rows : list R) (r : R) :
  objects_get kwargs rows = inr r -> r ∈ rows.
Proof.
  unfold objects_get. destruct (build_filter kwargs) as [e|p]; [discriminate|].
  destruct (List.filter p rows) as [|a [|b l]] eqn:E; try discriminate.
  intros [= <-]. apply list_elem_of_In.
  apply (proj1 (List.filter_In p a rows)). rewrite E. now left.
Qed.

(** X14.  In a consistent database a lookup by primary key, once the
    framework has turned the lookup value into the key [k], returns the
    row with key [k] when the table has one and raises [DoesNotExist]
    when it has none; it cannot meet two rows.  This is so for users by
    [id], schedules by [schedule_id] and meal statuses by [student_id]. *)
Theorem get_by_primary_key (d : db) :
  consistent d ->
  (forall key k,
      get_prep_value AutoField key = inr (VInt k) ->
      (forall u, u ∈ users d -> User.id u = k ->
         objects_get [("id", key)] (users d) = inr u)
      /\ ((forall u, u ∈ users d -> User.id u <> k) ->
          objects_get [("id", key)] (users d) = inl (DoesNotExist "User"))
      /\ (forall s, s ∈ schedules d -> Schedule.schedule_id s = k ->
            objects_get [("schedule_id", key)] (schedules d) = inr s)
      /\ ((forall s, s ∈ schedules d -> Schedule.schedule_id s <> k) ->
          objects_get [("schedule_id", key)] (schedules d) = inl (DoesNotExist "Schedule")))
  /\ (forall key k,
        get_prep_value (ForeignKey "Student") key = inr (VStr k) ->
        (forall m, m ∈ statuses d -> MealStatus.student_id m = k ->
           objects_get [("student_id", key)] (statuses d) = inr m)
        /\ ((forall m, m ∈ statuses d -> MealStatus.student_id m <> k) ->
            objects_get [("student_id", key)] (statuses d)
            = inl (DoesNotExist "MealStatus"))).
Proof.
  intros (_ & Husers & Hschedules & Hstatuses & _). split.
  - intros key k Hprep.
    destruct (filter_by_key User.id
                (fun r => scalar_eqb (model_value r "id") (VInt k) && true) k
                (users d) Husers) as [Hu1 Hu0].
    { intros r. simpl. rewrite andb_true_r. apply Z.eqb_eq. }
    destruct (filter_by_key Schedule.schedule_id
                (fun r => scalar_eqb (model_value r "schedule_id") (VInt k) && true) k
                (schedules d) Hschedules) as [Hs1 Hs0].
    { intros r. simpl. rewrite andb_true_r. apply Z.eqb_eq. }
    assert (build_filter (R := User.t) [("id", key)]
            = inr (fun r => scalar_eqb (model_value r "id") (VInt k) && true)) as Hbu
      by (simpl; now rewrite Hprep).
    assert (build_filter (R := Schedule.t) [("schedule_id", key)]
            = inr (fun r => scalar_eqb (model_value r "schedule_id") (VInt k) && true)) as Hbs
      by (simpl; now rewrite Hprep).
    unfold objects_get. rewrite Hbu, Hbs. repeat split.
    + intros u Hu Hk. now rewrite (Hu1 u Hu Hk).
    + intros Hnone. now rewrite (Hu0 Hnone).
    + intros s Hs Hk. now rewrite (Hs1 s Hs Hk).
    + intros Hnone. now rewrite (Hs0 Hnone).
  - intros key k Hprep.
    destruct (filter_by_key MealStatus.student_id
                (fun r => scalar_eqb (model_value r "student_id") (VStr k) && true) k
                (statuses d) Hstatuses) as [Hm1 Hm0].
    { intros r. simpl. rewrite andb_true_r. apply String.eqb_eq. }
    assert (build_filter (R := MealStatus.t) [("student_id", key)]
            = inr (fun r => scalar_eqb (model_value r "student_id") (VStr k) && true)) as Hbm
      by (simpl; now rewrite Hprep).
    unfold objects_get. rewrite Hbm. split.
    + intros m Hm Hk. now rewrite (Hm1 m Hm Hk).
    + intros Hnone. now rewrite (Hm0 Hnone).
Qed.

(** X15.  A [POST] that the user serializer accepts answers 201, appends
    one user whose [id] is the next value of the sequence, above every
    [id] in the table, and leaves the other tables alone; a [GET] that
    follows lists the earlier users and then the new one. *)
Theorem user_post_then_get (data : pyval) (v : User.data) (id : pyval) (d : db) :
  consistent d ->
  UserSerializer_is_valid d None data = Some v ->
  let u := User.mk (user_seq d + 1) (User.d_name v) (User.d_username v) in
  let d' := snd (run (userApi (json_request "POST" data) id) d) in
  fst (run (userApi (json_request "POST" data) id) d)
  = inr {| content := VStr "User Added Sucessfully!"; status := 201 |}
  /\ users d' = users d ++ [u]
  /\ (forall u', u' ∈ users d -> User.id u' < User.id u)
  /\ run (userApi (mkRequest "GET" None) (VInt (-1))) d'
     = (inr {| content := many UserSerializer_data (users d ++ [u]); status := 200 |}, d')
  /\ students d' = students d /\ schedules d' = schedules d /\ statuses d' = statuses d.
Proof.
  intros (_ & _ & _ & _ & Hseq & _) Hvalid u d'. subst u d'.
  unfold userApi. run_view. rewrite Hvalid. simpl. repeat split.
  intros u' Hu'. apply Hseq in Hu'. lia.
Qed.

Lemma same_row_same_key {R K} (pk : R -> K) (rows : list R) (a b : R) :
  identifies pk rows -> a ∈ rows -> b ∈ rows -> (pk a <> pk b <-> a <> b).
Proof.
  intros Hid Ha Hb. split.
  - intros Hne ->. now apply Hne.
  - intros Hne Hk. apply Hne. now apply Hid.
Qed.

(** X16.  A [DELETE] on the user view whose lookup finds a user removes
    that user and no other, and its [id] is not given out again: the user
    a later [POST] creates has a greater [id]. *)
Theorem user_delete_then_post (data key : pyval) (u : User.t) (id : pyval) (d : db)
    (data' : pyval) (v : User.data) :
  consistent d ->
  getitem data "id" = inr key ->
  objects_get [("id", key)] (users d) = inr u ->
  let d' := snd (run (userApi (json_request "DELETE" data) id) d) in
  UserSerializer_is_valid d' None data' = Some v ->
  let d'' := snd (run (userApi (json_request "POST" data') id) d') in
  fst (run (userApi (json_request "DELETE" data) id) d)
  = inr {| content := VStr "Data Deleted Sucessfully!"; status := 200 |}
  /\ (forall u', u' ∈ users d' <-> u' ∈ users d /\ u' <> u)
  /\ (exists u', users d'' = users d' ++ [u'] /\ User.id u < User.id u').
Proof.
  intros Hd Hkey Hget d'. subst d'.
  pose proof (objects_get_elem _ _ _ Hget) as Hu.
  destruct Hd as (_ & Husers & _ & _ & Hseq & _).
  unfold userApi. run_view. rewrite Hkey. simpl. rewrite Hget. simpl.
  intros Hvalid. rewrite Hvalid. simpl. repeat split.
  - apply delete_row_elem in H. tauto.
  - apply delete_row_elem in H as [Hne _]. intros ->. now apply Hne.
  - intros [Hu' Hne]. apply delete_row_elem. split; [|exact Hu'].
    apply (same_row_same_key User.id (users d)); auto using NoDup_identifies.
  - eexists. split; [reflexivity|]. simpl. apply Hseq in Hu. lia.
Qed.

(** X17.  A [PUT] on the schedule view whose lookup finds a schedule and
    whose body the serializer accepts rewrites that row in place: the row
    keeps its key and its position, takes the submitted fields, keeps
    its [DAY] when the body gives none, and no other row changes. *)
Theorem schedule_put_updates_in_place (data key : pyval) (row : Schedule.t)
    (v : Schedule.data) (id : pyval) (d : db) :
  consistent d ->
  getitem data "schedule_id" = inr key ->
  objects_get [("schedule_id", key)] (schedules d) = inr row ->
  ScheduleSerializer_is_valid d (Some row) data = Some v ->
  let d' := snd (run (scheduleApi (json_request "PUT" data) id) d) in
  fst (run (scheduleApi (json_request "PUT" data) id) d)
  = inr {| content := VStr "Data Updated Sucessfully!"; status := 200 |}
  /\ schedules d'
     = (fun r => if decide (Schedule.schedule_id r = Schedule.schedule_id row)
                 then Schedule.update row v else r) <$> schedules d
  /\ Schedule.schedule_id (Schedule.update row v) = Schedule.schedule_id row
  /\ Schedule.DAY (Schedule.update row v) = default (Schedule.DAY row) (Schedule.d_DAY v)
  /\ schedule_seq d' = schedule_seq d
  /\ students d' = students d /\ users d' = users d /\ statuses d' = statuses d.
Proof.
  intros Hd Hkey Hget Hvalid d'. subst d'.
  pose proof (objects_get_elem _ _ _ Hget) as Hrow.
  destruct Hd as (_ & _ & _ & _ & _ & Hseq & _).
  unfold scheduleApi. run_view. rewrite Hkey. simpl. rewrite Hget. simpl.
  rewrite Hvalid. simpl. repeat split.
  - unfold save_row. simpl.
    assert (has_pk Schedule.schedule_id (Schedule.schedule_id row) (schedules d) = true)
      as -> by (apply has_pk_spec, list_elem_of_fmap; eauto).
    reflexivity.
  - apply Hseq in Hrow. lia.
Qed.

(** X18.  A [POST] that the student serializer accepts, for a
    [student_id] that is not stored yet, stores the student as submitted
    at the end of the table and changes no other table; a [GET] that
    follows lists the earlier students and then the new one. *)
Theorem student_post_then_get (data : pyval) (s : Student.t) (id : pyval) (d : db) :
  StudentSerializer_is_valid d None data = Some s ->
  Student.student_id s ∉ Student.student_id <$> students d ->
  let d' := snd (run (studentApi (json_request "POST" data) id) d) in
  fst (run (studentApi (json_request "POST" data) id) d)
  = inr {| content := VStr "Student Added Sucessfully!"; status := 200 |}
  /\ students d' = students d ++ [s]
  /\ users d' = users d /\ schedules d' = schedules d /\ statuses d' = statuses d
  /\ run (studentApi (mkRequest "GET" None) id) d'
     = (inr {| content := many StudentSerializer_data (students d ++ [s]);
               status := 200 |}, d').
Proof.
  intros Hvalid Hkey d'. subst d'. unfold studentApi. run_view. rewrite Hvalid. simpl.
  unfold Student_create, insert_row.
  apply has_pk_false in Hkey. rewrite Hkey. simpl. repeat split.
Qed.


(** X20.  A [DELETE] on the meal-status view whose lookup finds a status
    removes that status and no other and leaves the students as they are:
    the student it belonged to stays stored. *)
Theorem meal_status_delete_keeps_student (data key : pyval) (m : MealStatus.t)
    (id : pyval) (d : db) :
  consistent d ->
  getitem data "student_id" = inr key ->
  objects_get [("student_id", key)] (statuses d) = inr m ->
  let d' := snd (run (mealStatusApi (json_request "DELETE" data) id) d) in
  fst (run (mealStatusApi (json_request "DELETE" data) id) d)
  = inr {| content := VStr "Data Deleted Sucessfully!"; status := 200 |}
  /\ (forall m', m' ∈ statuses d' <-> m' ∈ statuses d /\ m' <> m)
  /\ students d' = students d
  /\ MealStatus.student_id m ∈ Student.student_id <$> students d'.
Proof.
  intros Hd Hkey Hget d'. subst d'.
  pose proof (objects_get_elem _ _ _ Hget) as Hm.
  destruct Hd as (_ & _ & _ & Hstatuses & _ & _ & Hfk).
  unfold mealStatusApi. run_view. rewrite Hkey. simpl. rewrite Hget. simpl.
  repeat split.
  - apply delete_row_elem in H. tauto.
  - apply delete_row_elem in H as [Hne _]. intros ->. now apply Hne.
  - intros [Hm' Hne]. apply delete_row_elem. split; [|exact Hm'].
    apply (same_row_same_key MealStatus.student_id (statuses d));
      auto using NoDup_identifies.
  - now apply Hfk.
Qed.

End Records.

(** ** The properties above on small databases *)

Lemma example_db_consistent : Django.consistent Django.example_db.
Proof.
  unfold Django.example_db.
  apply preserves_run_op.
  apply preserves_run_op.
  apply consistent_empty.
Qed.

(** X14: the meal status of the stored student is found by its key. *)
Lemma get_by_primary_key_witness :
  Django.objects_get (F := Django.simple) [("student_id", Django.VStr "UGR/1234/12")]
    (Django.statuses Django.example_db)
  = inr (Django.MealStatus.mk "UGR/1234/12" false false false).
Proof.
  destruct (get_by_primary_key (F := Django.simple) Django.example_db example_db_consistent)
    as [_ Hstatus].
  apply (Hstatus (Django.VStr "UGR/1234/12") "UGR/1234/12" eq_refl).
  - vm_compute. apply list_elem_of_here.
  - reflexivity.
Defined.

(** X15: the first user of an empty database gets [id] 1. *)
Lemma user_post_then_get_witness :
  Django.users
    (snd (Django.run
            (Django.userApi (F := Django.simple)
               (Django.json_request "POST"
                  (Django.VDict [("name", Django.VStr "Abebe");
                                 ("username", Django.VStr "abebe")]))
               (Django.VInt (-1)))
            Django.empty_db))
  = Django.users Django.empty_db ++ [Django.User.mk (Django.user_seq Django.empty_db + 1)
                                       "Abebe" "abebe"].
Proof.
  apply (user_post_then_get (F := Django.simple)
           (Django.VDict [("name", Django.VStr "Abebe"); ("username", Django.VStr "abebe")])
           (Django.User.mkData "Abebe" "abebe") (Django.VInt (-1)) Django.empty_db).
  - apply consistent_empty.
  - reflexivity.
Defined.

(** X16: deleting user 1 and adding another user gives that user [id] 2. *)
Lemma user_delete_then_post_witness :
  fst (Django.run
         (Django.userApi (F := Django.simple)
            (Django.json_request "DELETE" (Django.VDict [("id", Django.VInt 1)]))
            (Django.VInt (-1)))
         (snd (Django.run_op (Django.OpUserCreate (Django.User.mkData "Abebe" "abebe"))
                 Django.empty_db)))
  = inr {| Django.content := Django.VStr "Data Deleted Sucessfully!";
           Django.status := 200 |}.
Proof.
  apply (user_delete_then_post (F := Django.simple)
           (Django.VDict [("id", Django.VInt 1)]) (Django.VInt 1)
           (Django.User.mk 1 "Abebe" "abebe") (Django.VInt (-1))
           (snd (Django.run_op (Django.OpUserCreate (Django.User.mkData "Abebe" "abebe"))
                   Django.empty_db))
           (Django.VDict [("name", Django.VStr "Kebede"); ("username", Django.VStr "kebede")])
           (Django.User.mkData "Kebede" "kebede")).
  - apply preserves_run_op. apply consistent_empty.
  - reflexivity.
  - reflexivity.
  - reflexivity.
Defined.

(** X17: a [PUT] without [DAY] on the one stored schedule. *)
Lemma schedule_put_updates_in_place_witness :
  fst (Django.run
         (Django.scheduleApi (F := Django.simple)
            (Django.json_request "PUT"
               (Django.VDict [("schedule_id", Django.VInt 1);
                              ("department", Django.VStr "Software");
                              ("batch", Django.VInt 4);
                              ("campus", Django.VStr "5killo");
                              ("section", Django.VInt 2);
                              ("time", Django.VStr "12:30:00")]))
            (Django.VInt 0))
         (snd (Django.run_op
                 (Django.OpScheduleCreate
                    (Django.Schedule.mkData 3 "Software" 1 "5killo" (Some "FR") "12:00:00"))
                 Django.empty_db)))
  = inr {| Django.content := Django.VStr "Data Updated Sucessfully!";
           Django.status := 200 |}.
Proof.
  apply (schedule_put_updates_in_place (F := Django.simple)
           (Django.VDict [("schedule_id", Django.VInt 1);
                          ("department", Django.VStr "Software");
                          ("batch", Django.VInt 4);
                          ("campus", Django.VStr "5killo");
                          ("section", Django.VInt 2);
                          ("time", Django.VStr "12:30:00")])
           (Django.VInt 1)
           (Django.Schedule.mk 1 3 "Software" 1 "5killo" "FR" "12:00:00")
           (Django.Schedule.mkData 4 "Software" 2 "5killo" None "12:30:00")
           (Django.VInt 0)
           (snd (Django.run_op
                   (Django.OpScheduleCreate
                      (Django.Schedule.mkData 3 "Software" 1 "5killo" (Some "FR") "12:00:00"))
                   Django.empty_db))).
  - apply preserves_run_op. apply consistent_empty.
  - reflexivity.
  - reflexivity.
  - reflexivity.
Defined.

(** X18: the first student of an empty database. *)
Lemma student_post_then_get_witness :
  fst (Django.run
         (Django.studentApi (F := Django.simple)
            (Django.json_request "POST"
               (Django.VDict [("student_id", Django.VStr "UGR/1234/12");
                              ("name", Django.VStr "Abebe");
                              ("department", Django.VStr "Software");
                              ("year_of_study", Django.VInt 3);
                              ("campus", Django.VStr "5killo");
                              ("section", Django.VInt 1)]))
            (Django.VInt 0))
         Django.empty_db)
  = inr {| Django.content := Django.VStr "Student Added Sucessfully!";
           Django.status := 200 |}.
Proof.
  apply (student_post_then_get (F := Django.simple)
           (Django.VDict [("student_id", Django.VStr "UGR/1234/12");
                          ("name", Django.VStr "Abebe");
                          ("department", Django.VStr "Software");
                          ("year_of_study", Django.VInt 3);
                          ("campus", Django.VStr "5killo");
                          ("section", Django.VInt 1)])
           Django.example_student (Django.VInt 0) Django.empty_db).
  - reflexivity.
  - intros Hin. now apply elem_of_nil in Hin.
Defined.


(** X20: deleting the status of the stored student keeps the student. *)
Lemma meal_status_delete_keeps_student_witness :
  Django.students
    (snd (Django.run
            (Django.mealStatusApi (F := Django.simple)
               (Django.json_request "DELETE"
                  (Django.VDict [("student_id", Django.VStr "UGR/1234/12")]))
               (Django.VInt (-1)))
            Django.example_db))
  = Django.students Django.example_db.
Proof.
  apply (meal_status_delete_keeps_student (F := Django.simple)
           (Django.VDict [("student_id", Django.VStr "UGR/1234/12")])
           (Django.VStr "UGR/1234/12")
           (Django.MealStatus.mk "UGR/1234/12" false false false)
           (Django.VInt (-1)) Django.example_db).
  - exact example_db_consistent.
  - reflexivity.
  - reflexivity.
Defined.

(** ** Status codes and routing *)

Section Routing.
Import Django.
Context {F : Framework}.

Lemma answers_bind {A B} (P : B -> Prop) (c : M A) (k : A -> M B) :
  (forall a, answers P (k a)) -> answers P (c ≫= k).
Proof.
  intros Hk d b d'. unfold mbind, M_bind, bind.
  destruct (c d) as [[e|a] d1]; [discriminate | apply Hk].
Qed.

Lemma answers_raise {A} (P : A -> Prop) (e : exn) : answers P (raise e).
Proof. intros d a d'. discriminate. Qed.

Lemma answers_respond (P : HttpResponse -> Prop) (data : pyval) (safe : bool) (status : Z) :
  P {| content := data; status := status |} -> answers P (respond data safe status).
Proof.
  intros HP d a d'. unfold respond, lift, JsonResponse.
  destruct (safe && negb (is_dict data)); [discriminate | now intros [= <- _]].
Qed.

Ltac answer :=
  repeat first
    [ apply answers_bind; intros ?
    | apply answers_raise
    | apply answers_respond; unfold expected_status; simpl;
      first [ now left
            | right; split; [now apply String.eqb_eq | tauto] ]
    | match goal with
      | |- answers _ (if String.eqb ?m ?s then _ else _) =>
          let E := fresh "Hmethod" in destruct (String.eqb m s) eqn:E
      | |- answers _ (if ?b then _ else _) => destruct b
      | |- answers _ (match ?x with _ => _ end) => destruct x
      end ].

Lemma answers_studentApi (request : request) (id : pyval) :
  answers (expected_status (method request)) (studentApi request id).
Proof. unfold studentApi, not_None. answer. Qed.

Lemma answers_userApi (request : request) (id : pyval) :
  answers (expected_status (method request)) (userApi request id).
Proof. unfold userApi, not_None. answer. Qed.

Lemma answers_scheduleApi (request : request) (id : pyval) :
  answers (expected_status (method request)) (scheduleApi request id).
Proof. unfold scheduleApi, not_None. answer. Qed.

Lemma answers_mealStatusApi (request : request) (id : pyval) :
  answers (expected_status (method request)) (mealStatusApi request id).
Proof. unfold mealStatusApi, not_None. answer. Qed.

Lemma answers_views :
  Forall (fun pv => forall request id,
            answers (expected_status (method request)) (view_fn (snd pv) request id))
         urlpatterns.
Proof.
  unfold urlpatterns.
  repeat (apply List.Forall_cons;
          [ simpl; intros request id;
            first [ apply answers_studentApi | apply answers_userApi
                  | apply answers_scheduleApi | apply answers_mealStatusApi ] |]).
  apply List.Forall_nil.
Qed.

(** X21.  Every response a request gets has status 200, except that a
    [POST] may get 201 or 400; no other status code is ever set. *)
Theorem response_status_codes (path : string) (request : request) (d d' : db)
    (r : HttpResponse) :
  run (dispatch path request) d = (inr r, d') ->
  status r = 200 \/ (method request = "POST" /\ (status r = 201 \/ status r = 400)).
Proof.
  unfold run, dispatch.
  destruct (resolve url_matching urlpatterns path) as [[v args]|] eqn:Hres;
    [|discriminate].
  apply resolve_listed in Hres as [p Hp].
  pose proof answers_views as Hall. rewrite Forall_forall in Hall.
  specialize (Hall _ Hp). simpl in Hall.
  unfold call_view. destruct args as [|a [|b args]]; [apply Hall | apply Hall | discriminate].
Qed.

(** X22.  Each resource path, alone or followed by an alphanumeric
    segment, resolves to the view of its resource with no argument: the
    segment takes no part in choosing the view or the record. *)
Theorem resource_paths_resolve (n : string) :
  all_alnum n = true ->
  resolve url_matching urlpatterns ("student/" +:+ n) = Some (studentApi_view, [])
  /\ resolve url_matching urlpatterns ("user/" +:+ n) = Some (userApi_view, [])
  /\ resolve url_matching urlpatterns ("schedule/" +:+ n) = Some (scheduleApi_view, [])
  /\ resolve url_matching urlpatterns ("meal-status/" +:+ n) = Some (mealStatusApi_view, []).
Proof.
  intros Hn. destruct (decide (n = "")) as [->|Hne].
  - destruct url_matching; repeat split.
  - repeat split.
    + unfold urlpatterns. cbn [resolve].
      rewrite (find_match_resource_only _ "s" "tudent/" n) by (reflexivity || assumption).
      now rewrite (find_match_segment _ "student/" n) by (discriminate || assumption).
    + now apply resolve_user.
    + unfold urlpatterns. cbn [resolve].
      rewrite !(find_match_other _ "student/" _ "schedule/" n)
        by (reflexivity || discriminate || exact Hn).
      rewrite !(find_match_other _ "user/" _ "schedule/" n)
        by (reflexivity || discriminate || exact Hn).
      rewrite (find_match_resource_only _ "s" "chedule/" n) by (reflexivity || assumption).
      now rewrite (find_match_segment _ "schedule/" n) by (discriminate || assumption).
    + now apply resolve_meal_status.
Qed.

End Routing.

(** X21 on a [POST] that adds a user. *)
Lemma response_status_codes_witness :
  201 = 200 \/ ("POST" = "POST" /\ (201 = 201 \/ 201 = 400)).
Proof.
  apply (response_status_codes (F := Django.simple) "user/"
           (Django.mkRequest "POST"
              (Some (Django.VDict [("name", Django.VStr "Abebe");
                                   ("username", Django.VStr "abebe")])))
           Django.empty_db
           (snd (Django.run_op (Django.OpUserCreate (Django.User.mkData "Abebe" "abebe"))
                   Django.empty_db))
           {| Django.content := Django.VStr "User Added Sucessfully!";
              Django.status := 201 |}).
  vm_compute. reflexivity.
Defined.

(** X22 for the segment "42". *)
Lemma resource_paths_resolve_witness :
  Django.resolve Django.Fullmatch (Django.urlpatterns (F := Django.simple)) "schedule/42"
  = Some (Django.scheduleApi_view (F := Django.simple), []).
Proof.
  apply (resource_paths_resolve (F := Django.simple) "42"). reflexivity.
Defined.

(** ** What a [GET] lists *)

Section Listings.
Import Django.
Context {F : Framework}.

Lemma resolve_bare :
  resolve url_matching urlpatterns "student/" = Some (studentApi_view, [])
  /\ resolve url_matching urlpatterns "user/" = Some (userApi_view, [])
  /\ resolve url_matching urlpatterns "schedule/" = Some (scheduleApi_view, [])
  /\ resolve url_matching urlpatterns "meal-status/" = Some (mealStatusApi_view, []).
Proof. destruct url_matching; repeat split. Qed.

Lemma resolve_student (n : string) :
  n <> "" -> all_alnum n = true ->
  resolve url_matching urlpatterns ("student/" +:+ n) = Some (studentApi_view, []).
Proof.
  intros Hne Hn. unfold urlpatterns. cbn [resolve].
  rewrite (find_match_resource_only _ "s" "tudent/" n) by (reflexivity || assumption).
  now rewrite (find_match_segment _ "student/" n) by (discriminate || assumption).
Qed.

Lemma resolve_schedule (n : string) :
  n <> "" -> all_alnum n = true ->
  resolve url_matching urlpatterns ("schedule/" +:+ n) = Some (scheduleApi_view, []).
Proof.
  intros Hne Hn. unfold urlpatterns. cbn [resolve].
  rewrite !(find_match_other _ "student/" _ "schedule/" n)
    by (reflexivity || discriminate || exact Hn).
  rewrite !(find_match_other _ "user/" _ "schedule/" n)
    by (reflexivity || discriminate || exact Hn).
  rewrite (find_match_resource_only _ "s" "chedule/" n) by (reflexivity || assumption).
  now rewrite (find_match_segment _ "schedule/" n) by (discriminate || assumption).
Qed.

(** X8.  A [GET] never changes the database and never raises inside a
    view.  On the path of a resource, alone or followed by an
    alphanumeric segment, it answers 200 with the whole serialized table
    of that resource: the students for [student/], the users for
    [user/], the schedules for [schedule/], the meal statuses for
    [meal-status/].  On any other path it answers in the same way for the
    view the path resolves to, or ends in [Http404] when the path does
    not resolve. *)
Theorem get_lists_whole_table (request : request) (d : db) :
  method request = "GET" ->
  (forall n,
      all_alnum n = true ->
      run (dispatch ("student/" +:+ n) request) d
      = (inr {| content := many StudentSerializer_data (students d); status := 200 |}, d)
      /\ run (dispatch ("user/" +:+ n) request) d
         = (inr {| content := many UserSerializer_data (users d); status := 200 |}, d)
      /\ run (dispatch ("schedule/" +:+ n) request) d
         = (inr {| content := many ScheduleSerializer_data (schedules d); status := 200 |}, d)
      /\ run (dispatch ("meal-status/" +:+ n) request) d
         = (inr {| content := many MealStatusSerializer_data (statuses d);
                   status := 200 |}, d))
  /\ (forall path,
        (resolve url_matching urlpatterns path = None
         /\ run (dispatch path request) d = (inl Http404, d))
        \/ exists v data,
             resolve url_matching urlpatterns path = Some (v, [])
             /\ run (dispatch path request) d
                = (inr {| content := data; status := 200 |}, d)
             /\ ((v = studentApi_view /\ data = many StudentSerializer_data (students d))
                 \/ (v = userApi_view /\ data = many UserSerializer_data (users d))
                 \/ (v = scheduleApi_view
                     /\ data = many ScheduleSerializer_data (schedules d))
                 \/ (v = mealStatusApi_view
                     /\ data = many MealStatusSerializer_data (statuses d)))).
Proof.
  intros Hm. split.
  - intros n Hn. unfold dispatch. destruct (decide (n = "")) as [->|Hne].
    + destruct resolve_bare as (Hs & Hu & Hc & Hms).
      change ("student/" +:+ "") with "student/". change ("user/" +:+ "") with "user/".
      change ("schedule/" +:+ "") with "schedule/".
      change ("meal-status/" +:+ "") with "meal-status/".
      rewrite Hs, Hu, Hc, Hms. unfold call_view. simpl view_fn. simpl view_id.
      rewrite (studentApi_get _ _ _ Hm), (userApi_get_default _ _ Hm),
        (scheduleApi_get _ _ _ Hm), (mealStatusApi_get_default _ _ Hm).
      repeat split.
    + rewrite (resolve_student n Hne Hn), (resolve_user n Hne Hn),
        (resolve_schedule n Hne Hn), (resolve_meal_status n Hne Hn).
      unfold call_view. simpl view_fn. simpl view_id.
      rewrite (studentApi_get _ _ _ Hm), (userApi_get_default _ _ Hm),
        (scheduleApi_get _ _ _ Hm), (mealStatusApi_get_default _ _ Hm).
      repeat split.
  - intros path. unfold dispatch.
    destruct (resolve url_matching urlpatterns path) as [[v args]|] eqn:Hres;
      [right | left; split; reflexivity].
    assert (args = []) as ->
      by (eapply resolve_captures; eauto using urlpatterns_capture_free).
    pose proof Hres as Hlisted.
    apply resolve_listed in Hlisted as [p Hp]. unfold urlpatterns in Hp. unfold call_view.
    repeat (apply elem_of_cons in Hp as [[= _ ->]|Hp];
            [ simpl view_fn; simpl view_id;
              first [ rewrite (studentApi_get _ _ _ Hm)
                    | rewrite (userApi_get_default _ _ Hm)
                    | rewrite (scheduleApi_get _ _ _ Hm)
                    | rewrite (mealStatusApi_get_default _ _ Hm) ];
              eexists _, _; split; [reflexivity|]; split; [reflexivity|]; tauto |]).
    now apply elem_of_nil in Hp.
Qed.

End Listings.

(** X8 on [GET user/42] over the database of one student: the users are
    listed, not the students. *)
Lemma get_lists_whole_table_witness :
  Django.run (Django.dispatch (F := Django.simple) "user/42" (Django.mkRequest "GET" None))
    Django.example_db
  = (inr {| Django.content := Django.many Django.UserSerializer_data
                                (Django.users Django.example_db);
            Django.status := 200 |}, Django.example_db).
Proof.
  destruct (get_lists_whole_table (F := Django.simple) (Django.mkRequest "GET" None)
              Django.example_db eq_refl) as [Hresource _].
  destruct (Hresource "42" eq_refl) as (_ & Husers & _).
  exact Husers.
Defined.
